(** * SIEM Query Generator: model selection, prompt construction and
      response parsing of [app.py]

    The development embeds the two functions of [app.py] that carry the
    request/response contract with the generative model:

    - [initialize_ai], which binds a model handle, and
    - [generate_siem_data], which builds the instruction prompt, calls the
      model and parses its answer.

    Python values are modelled as follows.  A [str] is the list of its
    Unicode code points.  The calls into [google.generativeai] are calls on
    an abstract backend that threads a world state and may raise.  The
    standard library function [json.loads] is modelled by a recursive
    descent decoder that follows CPython's scanner, and a float is kept as
    its numeral.  The interpreter's two resource limits are outside the
    model: CPython raises [RecursionError] for containers nested deeper
    than its recursion limit allows and [ValueError] for an integer literal
    of more digits than [sys.get_int_max_str_digits()], where the decoder
    below still returns a value.  Neither exception is a
    [json.JSONDecodeError].  For that reason the statements about
    [generate_siem_data] take the outcome of the decoder as it comes, a
    value, a [json.JSONDecodeError] or another exception, and none of them
    rests on the decoder raising nothing but [json.JSONDecodeError]. *)

From Stdlib Require Import List NArith ZArith Lia Bool.
From Stdlib Require String Ascii.
Import ListNotations String.StringSyntax.
Delimit Scope string_scope with string.

Set Warnings "-register-all".

(* ===================================================================== *)
(** ** Python [str] *)
(* ===================================================================== *)

Module PyStr.

(** A character is its code point; a [str] is the list of its
    characters. *)
Abbreviation char := N (only parsing).
Abbreviation str := (list N).

(** A literal whose characters are all ASCII. *)
Definition lit (s : String.string) : str :=
  map Ascii.N_of_ascii (String.list_ascii_of_string s).

(** The same, with an apostrophe standing for the double quote. *)
Definition qlit (s : String.string) : str :=
  map (fun c => if (c =? 39)%N then 34%N else c) (lit s).

Arguments lit s%_string.
Arguments qlit s%_string.

Definition newline : str := [10%N].

Fixpoint eqb (a b : str) : bool :=
  match a, b with
  | [], [] => true
  | x :: a', y :: b' => (x =? y)%N && eqb a' b'
  | _, _ => false
  end.

(** [str.isspace] on one character: CPython's [Py_UNICODE_ISSPACE]. *)
Definition isspace (c : char) : bool :=
  ((9 <=? c) && (c <=? 13) || (28 <=? c) && (c <=? 32)
   || (c =? 133) || (c =? 160) || (c =? 5760)
   || (8192 <=? c) && (c <=? 8202)
   || (c =? 8232) || (c =? 8233) || (c =? 8239) || (c =? 8287)
   || (c =? 12288))%N.

Fixpoint lstrip (s : str) : str :=
  match s with
  | c :: s' => if isspace c then lstrip s' else s
  | [] => []
  end.

Definition rstrip (s : str) : str := rev (lstrip (rev s)).

(** [s.strip()] *)
Definition strip (s : str) : str := rstrip (lstrip s).

(** [s.startswith(p)] *)
Fixpoint startswith (p s : str) : bool :=
  match p, s with
  | [], _ => true
  | a :: p', b :: s' => (a =? b)%N && startswith p' s'
  | _ :: _, [] => false
  end.

(** [s.endswith(p)] *)
Definition endswith (p s : str) : bool := startswith (rev p) (rev s).

(** [s.removeprefix(p)] *)
Definition removeprefix (p s : str) : str :=
  if startswith p s then skipn (length p) s else s.

(** [s.removesuffix(p)] *)
Definition removesuffix (p s : str) : str :=
  if endswith p s then firstn (length s - length p) s else s.

(** [sub in s] *)
Fixpoint contains (sub s : str) : bool :=
  startswith sub s ||
  match s with
  | [] => false
  | _ :: s' => contains sub s'
  end.

(** ["\n".join(lines)] *)
Fixpoint join_lines (lines : list str) : str :=
  match lines with
  | [] => []
  | [l] => l
  | l :: rest => l ++ newline ++ join_lines rest
  end.

(** A text made of white space only. *)
Definition blank (w : str) : Prop := Forall (fun c => isspace c = true) w.

(** [s] is empty or begins with a character that is not white space. *)
Definition tight_head (s : str) : Prop :=
  match s with
  | [] => True
  | c :: _ => isspace c = false
  end.

(** [s] is empty or ends with a character that is not white space. *)
Definition tight_last (s : str) : Prop := tight_head (rev s).

End PyStr.
Export PyStr.

(* ===================================================================== *)
(** ** Outcomes of Python calls *)
(* ===================================================================== *)

(** The exceptions the two functions can meet.  Every one of them is an
    instance of [Exception]; [OtherException] stands for any class that is
    not [json.JSONDecodeError], the tag telling instances apart.  The
    exceptions that derive from [BaseException] only ([KeyboardInterrupt],
    [SystemExit]), which [except Exception] lets through, are not
    modelled. *)
Inductive exn : Type :=
| JSONDecodeError
| RecursionError
| OtherException (tag : N).

Inductive outcome (A : Type) : Type :=
| Returns (a : A)
| Raises (e : exn).
Arguments Returns {A} a.
Arguments Raises {A} e.

Definition is_JSONDecodeError (e : exn) : bool :=
  match e with
  | JSONDecodeError => true
  | _ => false
  end.

(* ===================================================================== *)
(** ** [json.loads] *)
(* ===================================================================== *)

Module json.

(** The Python objects a JSON document decodes to.  A [dict] is kept in
    insertion order. *)
Inductive value : Type :=
| PyNone
| PyBool (b : bool)
| PyInt (z : Z)
| PyFloat (numeral : str)
| PyStr (s : str)
| PyList (items : list value)
| PyDict (items : list (str * value)).

(** [d[k] = v]: an existing key keeps its position. *)
Fixpoint dict_set (k : str) (v : value) (d : list (str * value))
  : list (str * value) :=
  match d with
  | [] => [(k, v)]
  | (k', v') :: d' =>
      if PyStr.eqb k k' then (k, v) :: d' else (k', v') :: dict_set k v d'
  end.

(** [d.get(k)] *)
Fixpoint dict_get (k : str) (d : list (str * value)) : option value :=
  match d with
  | [] => None
  | (k', v) :: d' => if PyStr.eqb k k' then Some v else dict_get k d'
  end.

(** Result of scanning a prefix of the input: the decoded item and the
    unread rest, a decode error, or recursion budget used up. *)
Inductive scanned (A : Type) : Type :=
| Parsed (a : A) (rest : str)
| Invalid
| Exhausted.
Arguments Parsed {A} a rest.
Arguments Invalid {A}.
Arguments Exhausted {A}.

(** The decoder's [WHITESPACE]: space, tab, line feed, carriage return. *)
Definition is_ws (c : char) : bool :=
  ((c =? 32) || (c =? 9) || (c =? 10) || (c =? 13))%N.

Fixpoint skip_ws (s : str) : str :=
  match s with
  | c :: s' => if is_ws c then skip_ws s' else s
  | [] => []
  end.

Definition isdigit (c : char) : bool := ((48 <=? c) && (c <=? 57))%N.

Definition hexval (c : char) : option N :=
  if ((48 <=? c) && (c <=? 57))%N then Some (c - 48)%N
  else if ((97 <=? c) && (c <=? 102))%N then Some (c - 87)%N
  else if ((65 <=? c) && (c <=? 70))%N then Some (c - 55)%N
  else None.

(** Four hexadecimal digits after a backslash-u. *)
Definition decode_uXXXX (s : str) : option (N * str) :=
  match s with
  | h1 :: h2 :: h3 :: h4 :: r =>
      match hexval h1, hexval h2, hexval h3, hexval h4 with
      | Some a, Some b, Some c, Some d =>
          Some ((((a * 16 + b) * 16 + c) * 16 + d)%N, r)
      | _, _, _, _ => None
      end
  | _ => None
  end.

Definition is_high_surrogate (c : N) : bool := ((55296 <=? c) && (c <=? 56319))%N.
Definition is_low_surrogate (c : N) : bool := ((56320 <=? c) && (c <=? 57343))%N.
Definition join_surrogates (hi lo : N) : N :=
  (65536 + ((hi - 55296) * 1024 + (lo - 56320)))%N.

(** The one-character escapes. *)
Definition unescape (c : char) : option char :=
  if (c =? 34)%N then Some 34%N
  else if (c =? 92)%N then Some 92%N
  else if (c =? 47)%N then Some 47%N
  else if (c =? 98)%N then Some 8%N
  else if (c =? 102)%N then Some 12%N
  else if (c =? 110)%N then Some 10%N
  else if (c =? 114)%N then Some 13%N
  else if (c =? 116)%N then Some 9%N
  else None.

(** [scanstring] in strict mode, entered after the opening quote; [acc]
    holds the characters decoded so far, last one first. *)
Fixpoint scanstring (k : nat) (s : str) (acc : str) : scanned str :=
  match k with
  | O => Exhausted
  | S k' =>
      match s with
      | [] => Invalid
      | c :: t =>
          if (c =? 34)%N then Parsed (rev acc) t
          else if (c =? 92)%N then
            match t with
            | [] => Invalid
            | e :: t1 =>
                if (e =? 117)%N then
                  match decode_uXXXX t1 with
                  | None => Invalid
                  | Some (cp, t2) =>
                      if is_high_surrogate cp then
                        match t2 with
                        | b :: u :: t3 =>
                            if ((b =? 92) && (u =? 117))%N then
                              match decode_uXXXX t3 with
                              | None => Invalid
                              | Some (cp2, t4) =>
                                  if is_low_surrogate cp2
                                  then scanstring k' t4 (join_surrogates cp cp2 :: acc)
                                  else scanstring k' t2 (cp :: acc)
                              end
                            else scanstring k' t2 (cp :: acc)
                        | _ => scanstring k' t2 (cp :: acc)
                        end
                      else scanstring k' t2 (cp :: acc)
                  end
                else
                  match unescape e with
                  | Some x => scanstring k' t1 (x :: acc)
                  | None => Invalid
                  end
            end
          else if (c <=? 31)%N then Invalid
          else scanstring k' t (c :: acc)
      end
  end.

(** The longest run of decimal digits at the head of [s]. *)
Fixpoint span_digits (s : str) : str * str :=
  match s with
  | c :: s' =>
      if isdigit c then let (d, r) := span_digits s' in (c :: d, r)
      else ([], s)
  | [] => ([], [])
  end.

Definition int_of_digits (ds : str) : Z :=
  fold_left (fun a c => (10 * a + Z.of_N (c - 48))%Z) ds 0%Z.

(** Integer part of a number: [0], or a non-zero digit and more digits. *)
Definition match_integer (s : str) : option (str * str) :=
  match s with
  | c :: t =>
      if ((49 <=? c) && (c <=? 57))%N then
        let (d, r) := span_digits t in Some (c :: d, r)
      else if (c =? 48)%N then Some ([c], t)
      else None
  | [] => None
  end.

(** Optional fraction: a dot and at least one digit. *)
Definition match_frac (s : str) : str * str :=
  match s with
  | dot :: d1 :: t =>
      if ((dot =? 46) && isdigit d1)%N then
        let (d, r) := span_digits t in (dot :: d1 :: d, r)
      else ([], s)
  | _ => ([], s)
  end.

(** Optional exponent: [e] or [E], an optional sign and at least one
    digit; without a digit nothing is consumed. *)
Definition match_exp (s : str) : str * str :=
  match s with
  | e :: t =>
      if ((e =? 101) || (e =? 69))%N then
        let (sign, t1) :=
          match t with
          | c :: t' => if ((c =? 45) || (c =? 43))%N then ([c], t') else ([], t)
          | [] => ([], t)
          end in
        let (d, r) := span_digits t1 in
        match d with
        | [] => ([], s)
        | _ :: _ => (e :: sign ++ d, r)
        end
      else ([], s)
  | [] => ([], s)
  end.

(** Optional minus sign. *)
Definition match_sign (s : str) : str * str :=
  match s with
  | c :: t => if (c =? 45)%N then ([c], t) else ([], s)
  | [] => ([], s)
  end.

(** [NUMBER_RE]; an integer literal becomes an [int], any other a
    [float]. *)
Definition match_number (s : str) : option (value * str) :=
  let (sign, s1) := match_sign s in
  match match_integer s1 with
  | None => None
  | Some (int, s2) =>
      let (frac, s3) := match_frac s2 in
      let (exp, s4) := match_exp s3 in
      match frac, exp with
      | [], [] =>
          Some (PyInt (match sign with
                       | [] => int_of_digits int
                       | _ => - int_of_digits int
                       end)%Z, s4)
      | _, _ => Some (PyFloat (sign ++ int ++ frac ++ exp), s4)
      end
  end.

(** Elements of a non-empty array, entered at the first element. *)
Fixpoint array_loop (scan : str -> scanned value) (k : nat) (s : str)
         (acc : list value) : scanned value :=
  match k with
  | O => Exhausted
  | S k' =>
      match scan s with
      | Parsed v r =>
          match skip_ws r with
          | c :: r' =>
              if (c =? 93)%N then Parsed (PyList (rev (v :: acc))) r'
              else if (c =? 44)%N then array_loop scan k' (skip_ws r') (v :: acc)
              else Invalid
          | [] => Invalid
          end
      | Invalid => Invalid
      | Exhausted => Exhausted
      end
  end.

(** [JSONArray], entered after the opening bracket. *)
Definition parse_array (scan : str -> scanned value) (k : nat) (s : str)
  : scanned value :=
  match skip_ws s with
  | c :: r =>
      if (c =? 93)%N then Parsed (PyList []) r
      else array_loop scan k (c :: r) []
  | [] => Invalid
  end.

(** Members of a non-empty object, entered at the first key. *)
Fixpoint object_loop (scan : str -> scanned value) (k : nat) (s : str)
         (d : list (str * value)) : scanned value :=
  match k with
  | O => Exhausted
  | S k' =>
      match s with
      | c :: s1 =>
          if (c =? 34)%N then
            match scanstring k' s1 [] with
            | Parsed key s2 =>
                match skip_ws s2 with
                | c2 :: s3 =>
                    if (c2 =? 58)%N then
                      match scan (skip_ws s3) with
                      | Parsed v s4 =>
                          match skip_ws s4 with
                          | c3 :: s5 =>
                              if (c3 =? 125)%N
                              then Parsed (PyDict (dict_set key v d)) s5
                              else if (c3 =? 44)%N
                              then object_loop scan k' (skip_ws s5) (dict_set key v d)
                              else Invalid
                          | [] => Invalid
                          end
                      | Invalid => Invalid
                      | Exhausted => Exhausted
                      end
                    else Invalid
                | [] => Invalid
                end
            | Invalid => Invalid
            | Exhausted => Exhausted
            end
          else Invalid
      | [] => Invalid
      end
  end.

(** [JSONObject], entered after the opening brace. *)
Definition parse_object (scan : str -> scanned value) (k : nat) (s : str)
  : scanned value :=
  match skip_ws s with
  | c :: r =>
      if (c =? 125)%N then Parsed (PyDict []) r
      else object_loop scan k (c :: r) []
  | [] => Invalid
  end.

(** [scan_once]: one JSON value at the head of [s]. *)
Fixpoint scan_once (n : nat) (s : str) : scanned value :=
  match n with
  | O => Exhausted
  | S n' =>
      match s with
      | [] => Invalid
      | c :: t =>
          if (c =? 34)%N then
            match scanstring n' t [] with
            | Parsed x r => Parsed (PyStr x) r
            | Invalid => Invalid
            | Exhausted => Exhausted
            end
          else if (c =? 123)%N then parse_object (scan_once n') n' t
          else if (c =? 91)%N then parse_array (scan_once n') n' t
          else if startswith (lit "null") s then Parsed PyNone (skipn 4 s)
          else if startswith (lit "true") s then Parsed (PyBool true) (skipn 4 s)
          else if startswith (lit "false") s then Parsed (PyBool false) (skipn 5 s)
          else
            match match_number s with
            | Some (v, r) => Parsed v r
            | None =>
                if startswith (lit "NaN") s
                then Parsed (PyFloat (lit "NaN")) (skipn 3 s)
                else if startswith (lit "Infinity") s
                then Parsed (PyFloat (lit "Infinity")) (skipn 8 s)
                else if startswith (lit "-Infinity") s
                then Parsed (PyFloat (lit "-Infinity")) (skipn 9 s)
                else Invalid
            end
      end
  end.

(** [json.loads(s)] for a [str]: reject a byte order mark, skip
    whitespace, decode one value, and accept only whitespace after it.

    The budget handed to [scan_once], one more than the length of the text,
    is what makes the definition structurally recursive; it always suffices
    (see [loads_budget_suffices]), so the last branch is never taken.  It
    is not CPython's recursion limit: on a text whose containers nest
    deeper than the interpreter allows, or with an integer literal longer
    than [sys.get_int_max_str_digits()] digits, CPython raises
    [RecursionError] or [ValueError] where this definition decodes the
    text. *)
Definition loads (s : str) : outcome value :=
  if startswith [65279%N] s then Raises JSONDecodeError
  else
    match scan_once (S (length s)) (skip_ws s) with
    | Parsed v r =>
        match skip_ws r with
        | [] => Returns v
        | _ :: _ => Raises JSONDecodeError
        end
    | Invalid => Raises JSONDecodeError
    | Exhausted => Raises RecursionError
    end.

(** Characters that take no part in the JSON syntax: white space as
    [str.strip] sees it, the backtick and the byte order mark. *)
Definition trailer (c : char) : bool :=
  isspace c || (c =? 96)%N || (c =? 65279)%N.

Definition inert (w : str) : Prop := Forall (fun c => trailer c = true) w.

(** [tgt] reads from a text what [src] reads from the text followed by
    inert characters, for texts shorter than [bound]. *)
Definition cuts {A} (src tgt : str -> scanned A) (bound : nat) : Prop :=
  forall s w a r,
    inert w ->
    src (s ++ w) = Parsed a r ->
    length s < bound ->
    exists r0, r = r0 ++ w /\ length r0 < length s
               /\ tgt s = Parsed a r0.

End json.

(* ===================================================================== *)
(** ** The [google.generativeai] backend *)
(* ===================================================================== *)

Module genai.

(** An entry of [genai.list_models()]; the attribute
    [supported_generation_methods] may be missing. *)
Record Model : Type := {
  name : str;
  supported_generation_methods : option (list str)
}.

(** The backend as the program sees it: every call reads and changes the
    state of the outside world and either returns or raises. *)
Record api : Type := {
  world : Type;
  handle : Type;
  response : Type;
  configure : str -> world -> outcome unit * world;
  GenerativeModel : str -> world -> outcome handle * world;
  list_models : world -> outcome (list Model) * world;
  generate_content : handle -> str -> world -> outcome response * world;
  text : response -> world -> outcome str * world
}.

End genai.

(* ===================================================================== *)
(** ** [app.py] *)
(* ===================================================================== *)

Module app.
Import json.

(** The backend calls a run makes, in order. *)
Inductive call : Type :=
| Configure (api_key : str)
| NewGenerativeModel (model_name : str)
| ListModels
| GenerateContent (prompt : str)
| ReadText.

Section Program.

Variable g : genai.api.

Record state : Type := {
  outside : genai.world g;
  calls : list call
}.

(** Computations: state passing with exceptions. *)
Definition M (A : Type) : Type := state -> outcome A * state.

Definition ret {A} (a : A) : M A := fun st => (Returns a, st).

Definition raise {A} (e : exn) : M A := fun st => (Raises e, st).

Definition bind {A B} (m : M A) (k : A -> M B) : M B :=
  fun st =>
    match m st with
    | (Returns a, st') => k a st'
    | (Raises e, st') => (Raises e, st')
    end.

(** [try: body except <class>: handler], where [catches] tells which
    exceptions are instances of the class. *)
Definition try_except {A} (body : M A) (catches : exn -> bool)
           (handler : exn -> M A) : M A :=
  fun st =>
    match body st with
    | (Returns a, st') => (Returns a, st')
    | (Raises e, st') =>
        if catches e then handler e st' else (Raises e, st')
    end.

(** A backend call, recorded in [calls]. *)
Definition invoke {A} (c : call)
           (f : genai.world g -> outcome A * genai.world g) : M A :=
  fun st =>
    let (r, w) := f (outside st) in
    (r, {| outside := w; calls := calls st ++ [c] |}).

Definition of_outcome {A} (o : outcome A) : M A := fun st => (o, st).

Notation "x <- m ;; k" := (bind m (fun x => k))
  (at level 61, m at next level, right associativity).
Notation "m ;; k" := (bind m (fun _ => k))
  (at level 61, right associativity).

(** [except Exception]: every modelled exception is an [Exception]. *)
Definition Exception (e : exn) : bool := true.

Definition preferred_model : str := lit "gemini-1.5-flash".

(** ["generateContent" in getattr(model, "supported_generation_methods", [])] *)
Definition supports_generateContent (m : genai.Model) : bool :=
  match genai.supported_generation_methods m with
  | Some methods => existsb (PyStr.eqb (lit "generateContent")) methods
  | None => false
  end.

Definition initialize_ai (api_key : str) : M (genai.handle g) :=
  invoke (Configure api_key) (genai.configure g api_key) ;;
  try_except
    (invoke (NewGenerativeModel preferred_model)
            (genai.GenerativeModel g preferred_model))
    Exception
    (fun e =>
       models <- invoke ListModels (genai.list_models g) ;;
       let available_models :=
         map genai.name (filter supports_generateContent models) in
       match available_models with
       | [] => raise e
       | first :: _ =>
           invoke (NewGenerativeModel first) (genai.GenerativeModel g first)
       end).

Definition system_prompt (language : str) : str :=
  join_lines
    [ [];
      lit "    You are a Senior Security Detection Engineer. Your stack focus is Microsoft Entra ID, Azure, AWS, and Google SecOps.";
      lit "    Translate the following Natural Language threat hunting request into a highly optimized " ++ language ++ lit " query.";
      [];
      lit "    CRITICAL SOC GUARDRAILS (YOU MUST INJECT THESE INTO THE QUERY):";
      lit "    1. Time scoping: Restrict the search to the last 24 hours.";
      qlit "    2. Exclude service accounts: Filter out users/accounts starting with 'svc_'.";
      lit "    3. Performance limit: Limit the output to 100 results (e.g., `| take 100`, `| head 100`, etc.).";
      [];
      lit "    INVESTIGATIVE RECOMMENDATIONS:";
      lit "    Provide 3 to 4 logical next-step investigative search terms, pivots, or logic steps based on the context of the user's input.";
      qlit "    (e.g., if checking IPs, suggest 'Auth Success vs Failure', 'Device IDs').";
      [];
      lit "    OUTPUT FORMAT:";
      qlit "    You must return a valid JSON object with EXACTLY two keys: 'query' and 'recommendations'.";
      qlit "    'query' must be a string containing the raw code.";
      qlit "    'recommendations' must be a list of 3-4 strings.";
      lit "    Do not wrap the JSON in markdown code blocks. Just return the raw JSON string.";
      lit "    " ].

(** The text handed to [model.generate_content]. *)
Definition prompt (nl_input language : str) : str :=
  system_prompt language ++ newline ++ newline
    ++ lit "User Request: " ++ nl_input.

(** [response.text.strip().removeprefix("```json").removesuffix("```").strip()] *)
Definition clean_text (response_text : str) : str :=
  strip (removesuffix (lit "```")
           (removeprefix (lit "```json") (strip response_text))).

(** The record returned when decoding fails. *)
Definition fallback : value :=
  PyDict [ (lit "query", PyStr (lit "-- Error parsing AI response. Please try again."));
           (lit "recommendations", PyList []) ].

Definition generate_siem_data (model : genai.handle g)
           (nl_input language : str) : M value :=
  response <- invoke (GenerateContent (prompt nl_input language))
                     (genai.generate_content g model (prompt nl_input language)) ;;
  try_except
    (response_text <- invoke ReadText (genai.text g response) ;;
     of_outcome (loads (clean_text response_text)))
    is_JSONDecodeError
    (fun _ => ret fallback).

End Program.

Arguments outside {g} s.
Arguments calls {g} s.

(** The entries of the language selector. *)
Definition siem_languages : list str :=
  [ lit "KQL (Microsoft Sentinel)"; lit "YARA-L (Google SecOps)";
    lit "Sigma"; lit "Splunk SPL" ].

(** *** Observations on a run *)

(** The backend calls a run started in [st] has added. *)
Definition new_calls {g A} (st : state g) (run : outcome A * state g)
  : list call :=
  skipn (length (calls st)) (calls (snd run)).

(** The prompts handed to [generate_content] among some calls. *)
Fixpoint prompts_sent (cs : list call) : list str :=
  match cs with
  | [] => []
  | GenerateContent p :: cs' => p :: prompts_sent cs'
  | _ :: cs' => prompts_sent cs'
  end.

(** In state [st] the model answers the prompt with a response whose
    text is [T]. *)
Definition answers (g : genai.api) (model : genai.handle g)
           (nl_input language : str) (st : state g) (T : str) : Prop :=
  exists resp w1 w2,
    genai.generate_content g model (prompt nl_input language) (outside st)
      = (Returns resp, w1)
    /\ genai.text g resp w1 = (Returns T, w2).

(** In state [st] obtaining the response text raises [e]: either the
    generation call or the read of [response.text] does. *)
Definition obtaining_raises (g : genai.api) (model : genai.handle g)
           (nl_input language : str) (st : state g) (e : exn) : Prop :=
  (exists w1,
      genai.generate_content g model (prompt nl_input language) (outside st)
        = (Raises e, w1))
  \/ (exists resp w1 w2,
         genai.generate_content g model (prompt nl_input language) (outside st)
           = (Returns resp, w1)
         /\ genai.text g resp w1 = (Raises e, w2)).

(** A response text inside a markdown fence tagged [json], with any text
    (white space, in the statements below) around the markers. *)
Definition json_fence (ws1 ws2 T ws3 ws4 : str) : str :=
  ws1 ++ lit "```json" ++ ws2 ++ T ++ ws3 ++ lit "```" ++ ws4.

(** A response text inside a fence without a language tag. *)
Definition plain_fence (ws1 X ws2 : str) : str :=
  ws1 ++ lit "```" ++ X ++ lit "```" ++ ws2.

(** The invariant of a synthesized result: a [query] entry is present and
    [recommendations] is a list of at most four entries. *)
Definition SynthesizedResult (v : value) : bool :=
  match v with
  | PyDict d =>
      match dict_get (lit "query") d, dict_get (lit "recommendations") d with
      | Some _, Some (PyList recs) => length recs <=? 4
      | _, _ => false
      end
  | _ => false
  end.

(** The three guardrail clauses of the instruction text. *)
Definition guardrail_24h : str := lit "Restrict the search to the last 24 hours.".
Definition guardrail_svc : str := qlit "Filter out users/accounts starting with 'svc_'.".
Definition guardrail_cap : str := lit "Limit the output to 100 results".

(** The fallback record with the query text of the specification, which
    lacks the leading comment marker of [fallback]. *)
Definition fallback_without_marker : value :=
  PyDict [ (lit "query", PyStr (lit "Error parsing AI response. Please try again."));
           (lit "recommendations", PyList []) ].

(** *** A scripted backend

    A backend without state whose calls give fixed outcomes; a handle is
    the model name and a response is the outcome of reading its text. *)
Record script : Type := {
  on_configure : outcome unit;
  on_bind : str -> outcome str;
  on_list_models : outcome (list genai.Model);
  on_generate : outcome (outcome str)
}.

Definition scripted (sc : script) : genai.api :=
  {| genai.world := unit;
     genai.handle := str;
     genai.response := outcome str;
     genai.configure := fun _ w => (on_configure sc, w);
     genai.GenerativeModel := fun model_name w => (on_bind sc model_name, w);
     genai.list_models := fun w => (on_list_models sc, w);
     genai.generate_content := fun _ _ w => (on_generate sc, w);
     genai.text := fun r w => (r, w) |}.

(** The backend of the scenarios: every model binds, and the model
    answers [reply]. *)
Definition replying (reply : outcome (outcome str)) : genai.api :=
  scripted {| on_configure := Returns tt;
              on_bind := fun model_name => Returns model_name;
              on_list_models := Returns [];
              on_generate := reply |}.

Definition start (g : genai.api) (w : genai.world g) : state g :=
  {| outside := w; calls := [] |}.

(** A backend whose preferred model is gone and whose catalogue has no
    model for content generation. *)
Definition without_models : genai.api :=
  scripted {| on_configure := Returns tt;
              on_bind := fun _ => Raises (OtherException 404);
              on_list_models :=
                Returns [ {| genai.name := lit "models/embedding-001";
                             genai.supported_generation_methods :=
                               Some [lit "embedContent"] |};
                          {| genai.name := lit "models/aqa";
                             genai.supported_generation_methods := None |} ];
              on_generate := Raises (OtherException 500) |}.

(** The answers of the scenarios. *)
Definition scenario_reply : str :=
  qlit "{'query': 'SigninLogs | where ResultType != 0 | take 100', 'recommendations': ['Check MFA failures', 'Correlate by IP']}".

Definition truncated_reply : str := qlit "{'query': 'SigninLogs | take 100'".

Definition refusal_reply : str := lit "I cannot help with that.".

Definition array_reply : str := qlit "['Check MFA failures', 'Correlate by IP']".

Definition fenced_reply : str :=
  lit "```json" ++ newline ++ lit "{}" ++ newline ++ lit "```".

Definition unchecked_reply : str :=
  qlit "{'recommendations': ['a', 'b', 'c', 'd', 'e']}".

(** [generate_siem_data] run against a model that answers [T]. *)
Definition synthesize (T : str) : outcome value :=
  fst (generate_siem_data (replying (Returns (Returns T))) preferred_model
         (lit "failed logins from new countries")
         (lit "KQL (Microsoft Sentinel)")
         (start (replying (Returns (Returns T))) tt)).

End app.

(* ===================================================================== *)
(** ** The button handler of [app.py] *)
(* ===================================================================== *)

Module script.
Import json app.

(** The Streamlit calls of the handler, with their arguments. *)
Inductive widget : Type :=
| st_error (body : str)
| st_warning (body : str)
| st_spinner (text : str)
| st_subheader (body : str)
| st_code (body : value) (language : str)
| st_markdown (body : str) (unsafe_allow_html : bool)
| st_info (body : str).

(** What stops the handler: an exception of a backend call, which it
    does not catch, or one raised by its own operations on the result. *)
Inductive page_exn : Type :=
| BackendError (e : exn)
| AttributeError
| TypeError.

Inductive page_result (A : Type) : Type :=
| Done (a : A)
| Crashed (e : page_exn).
Arguments Done {A} a.
Arguments Crashed {A} e.

(** [result.get(key, default)]: of the decoded values only a [dict] has
    the method. *)
Definition get (result : value) (key : str) (default : value)
  : page_result value :=
  match result with
  | PyDict d =>
      match dict_get key d with
      | Some v => Done v
      | None => Done default
      end
  | _ => Crashed AttributeError
  end.

(** The items [for rec in recs] visits: the elements of a [list], the
    characters of a [str], the keys of a [dict]; other values are not
    iterable. *)
Definition iterate (recs : value) : page_result (list value) :=
  match recs with
  | PyList items => Done items
  | PyStr s => Done (map (fun c => PyStr [c]) s)
  | PyDict d => Done (map (fun kv => PyStr (fst kv)) d)
  | _ => Crashed TypeError
  end.

(** The calls model selection makes. *)
Definition selection_call (c : call) : bool :=
  match c with
  | Configure _ | NewGenerativeModel _ | ListModels => true
  | GenerateContent _ | ReadText => false
  end.

(** The model names handles were constructed for, among some calls. *)
Fixpoint models_bound (cs : list call) : list str :=
  match cs with
  | [] => []
  | NewGenerativeModel model_name :: cs' => model_name :: models_bound cs'
  | _ :: cs' => models_bound cs'
  end.

(** An answer [T] with text around it: [opener] before, [closer] after,
    and four stretches of other text. *)
Definition marked (opener closer ws1 ws2 T ws3 ws4 : str) : str :=
  ws1 ++ opener ++ ws2 ++ T ++ ws3 ++ closer ++ ws4.

(** A marker that may be absent. *)
Definition optional (marker s : str) : Prop := s = [] \/ s = marker.

Section Page.

Variable g : genai.api.

(** Two builtins on decoded values are taken as given: [bool(x)] for the
    float written as a numeral, and [str(x)] for a value that is not a
    [str]. *)
Variable bool_of_float : str -> bool.
Variable str_of_value : value -> str.

(** [bool(x)] *)
Definition truthy (x : value) : bool :=
  match x with
  | PyNone => false
  | PyBool b => b
  | PyInt z => negb (z =? 0)%Z
  | PyFloat numeral => bool_of_float numeral
  | PyStr s => match s with [] => false | _ :: _ => true end
  | PyList items => match items with [] => false | _ :: _ => true end
  | PyDict d => match d with [] => false | _ :: _ => true end
  end.

(** [f"{rec}"] *)
Definition format (rec : value) : str :=
  match rec with
  | PyStr s => s
  | _ => str_of_value rec
  end.

(** The markup of one recommendation. *)
Definition recommendation_box (rec : value) : str :=
  qlit "<div class='recommendation-box' style='margin-bottom: 10px;'>"
    ++ [128161%N] ++ lit " <strong>Pivot:</strong> " ++ format rec
    ++ lit "</div>".

(** The backend state and the widgets shown so far. *)
Record page_state : Type := {
  backend : state g;
  screen : list widget
}.

Definition UI (A : Type) : Type := page_state -> page_result A * page_state.

Definition done {A} (a : A) : UI A := fun ps => (Done a, ps).

Definition then_ {A B} (m : UI A) (k : A -> UI B) : UI B :=
  fun ps =>
    match m ps with
    | (Done a, ps') => k a ps'
    | (Crashed e, ps') => (Crashed e, ps')
    end.

(** A Streamlit call. *)
Definition show (w : widget) : UI unit :=
  fun ps => (Done tt, {| backend := backend ps; screen := screen ps ++ [w] |}).

(** A call of one of the two functions; its exception is not caught. *)
Definition call_function {A} (m : M g A) : UI A :=
  fun ps =>
    match m (backend ps) with
    | (Returns a, st) => (Done a, {| backend := st; screen := screen ps |})
    | (Raises e, st) =>
        (Crashed (BackendError e), {| backend := st; screen := screen ps |})
    end.

Definition of_result {A} (r : page_result A) : UI A := fun ps => (r, ps).

Notation "x <- m ;; k" := (then_ m (fun x => k))
  (at level 61, m at next level, right associativity).
Notation "m ;; k" := (then_ m (fun _ => k))
  (at level 61, right associativity).

Fixpoint for_each {A} (items : list A) (body : A -> UI unit) : UI unit :=
  match items with
  | [] => done tt
  | x :: rest => body x ;; for_each rest body
  end.

(** The script from [if generate_btn:] on, for the values the widgets
    have returned. *)
Definition on_generate_btn (generate_btn : bool)
           (api_key nl_input siem_language : str) : UI unit :=
  if generate_btn then
    match api_key with
    | [] => show (st_error (lit "Please provide a Gemini API Key in the sidebar."))
    | _ :: _ =>
        match nl_input with
        | [] => show (st_warning (lit "Please describe a threat to generate a query."))
        | _ :: _ =>
            show (st_spinner (lit "Compiling query and generating recommendations...")) ;;
            model <- call_function (initialize_ai g api_key) ;;
            result <- call_function (generate_siem_data g model nl_input siem_language) ;;
            show (st_subheader (lit "Generated " ++ siem_language ++ lit " Query")) ;;
            query <- of_result (get result (lit "query")
                                    (PyStr (lit "Error generating query."))) ;;
            show (st_code query (lit "sql")) ;;
            show (st_subheader ([128269%N] ++ lit " Investigative Recommendations")) ;;
            recs <- of_result (get result (lit "recommendations") (PyList [])) ;;
            if truthy recs then
              items <- of_result (iterate recs) ;;
              for_each items
                (fun rec => show (st_markdown (recommendation_box rec) true))
            else show (st_info (lit "No recommendations generated."))
        end
    end
  else done tt.

End Page.

Arguments backend {g} p.
Arguments screen {g} p.

(** The widgets and the backend calls a run of the handler has added. *)
Definition new_widgets {g A} (ps : page_state g)
           (run : page_result A * page_state g) : list widget :=
  skipn (length (screen ps)) (screen (snd run)).

Definition page_calls {g A} (ps : page_state g)
           (run : page_result A * page_state g) : list call :=
  skipn (length (calls (backend ps))) (calls (backend (snd run))).

(** The messages and headers of the handler. *)
Definition spinner : widget :=
  st_spinner (lit "Compiling query and generating recommendations...").

Definition query_header (siem_language : str) : widget :=
  st_subheader (lit "Generated " ++ siem_language ++ lit " Query").

Definition recommendations_header : widget :=
  st_subheader ([128269%N] ++ lit " Investigative Recommendations").

Definition no_recommendations : widget :=
  st_info (lit "No recommendations generated.").

(** The two builtins on the values of the scenarios, where they are not
    used: no float, and only [str] recommendations. *)
Definition no_float (numeral : str) : bool := true.
Definition unused_str (v : value) : str := [].

(** A page that starts empty on the backend [g]. *)
Definition fresh (g : genai.api) (w : genai.world g) : page_state g :=
  {| backend := start g w; screen := [] |}.

(** A backend whose preferred model is gone and that lists, after a
    model without content generation, two that have it. *)
Definition with_fallback_models (reply : outcome (outcome str)) : genai.api :=
  scripted {| on_configure := Returns tt;
              on_bind := fun model_name =>
                if PyStr.eqb model_name preferred_model
                then Raises (OtherException 404)
                else Returns model_name;
              on_list_models :=
                Returns [ {| genai.name := lit "models/embedding-001";
                             genai.supported_generation_methods :=
                               Some [lit "embedContent"] |};
                          {| genai.name := lit "models/gemini-pro";
                             genai.supported_generation_methods :=
                               Some [lit "generateContent"; lit "countTokens"] |};
                          {| genai.name := lit "models/gemini-ultra";
                             genai.supported_generation_methods :=
                               Some [lit "generateContent"] |} ];
              on_generate := reply |}.

(** A backend whose preferred model is gone and whose listing fails. *)
Definition listing_fails : genai.api :=
  scripted {| on_configure := Returns tt;
              on_bind := fun _ => Raises (OtherException 404);
              on_list_models := Raises (OtherException 403);
              on_generate := Raises (OtherException 500) |}.

(** A backend whose client cannot be configured. *)
Definition configure_fails : genai.api :=
  scripted {| on_configure := Raises (OtherException 401);
              on_bind := fun model_name => Returns model_name;
              on_list_models := Returns [];
              on_generate := Raises (OtherException 500) |}.

(** Answers whose [recommendations] is not a list. *)
Definition integer_reply : str := qlit "{'query': 'q', 'recommendations': 3}".
Definition string_reply : str := qlit "{'query': 'q', 'recommendations': 'ab'}".

(** An answer with six recommendations. *)
Definition six_reply : str :=
  qlit "{'query': 'q', 'recommendations': ['a', 'b', 'c', 'd', 'e', 'f']}".

End script.

(* ===================================================================== *)
(** * Properties *)
(* ===================================================================== *)

(** ** Trimming, prefixes and suffixes *)

Module StrFacts.

Lemma blank_nil : blank [].
Proof. constructor. Qed.

Lemma blank_app l w : blank l -> blank w -> blank (l ++ w).
Proof. intros Hl Hw. apply Forall_app. split; assumption. Qed.

Lemma blank_rev w : blank w -> blank (rev w).
Proof. apply Forall_rev. Qed.

Lemma tight_head_app a b : a <> [] -> tight_head a -> tight_head (a ++ b).
Proof. destruct a; simpl; [congruence | auto]. Qed.

Lemma lstrip_tight s : tight_head s -> lstrip s = s.
Proof.
  destruct s as [|c s]; simpl; [reflexivity|].
  intros ->. reflexivity.
Qed.

Lemma lstrip_blank_app l s : blank l -> lstrip (l ++ s) = lstrip s.
Proof.
  induction 1 as [|c l Hc _ IH]; simpl; [reflexivity|].
  rewrite Hc. exact IH.
Qed.

Lemma lstrip_app_tight y b : tight_head b -> lstrip (y ++ b) = lstrip y ++ b.
Proof.
  intros Hb. induction y as [|c y IH]; simpl.
  - apply lstrip_tight, Hb.
  - destruct (isspace c); [exact IH | reflexivity].
Qed.

(** What [lstrip] removes is white space, and what it leaves begins with
    another character. *)
Lemma lstrip_split s :
  exists l, s = l ++ lstrip s /\ blank l /\ tight_head (lstrip s).
Proof.
  induction s as [|c s IH]; simpl.
  - exists []. repeat split. constructor.
  - destruct (isspace c) eqn:Hc.
    + destruct IH as (l & Hs & Hl & Ht).
      exists (c :: l). simpl. rewrite <- Hs. repeat split; auto.
      constructor; assumption.
    + exists []. simpl. repeat split; auto. constructor.
Qed.

Lemma lstrip_app_blank x w :
  blank w ->
  (lstrip x = [] /\ lstrip (x ++ w) = []) \/
  (lstrip x <> [] /\ lstrip (x ++ w) = lstrip x ++ w).
Proof.
  intros Hw. induction x as [|c x IH]; simpl.
  - left. split; [reflexivity|].
    rewrite <- (app_nil_r w). rewrite lstrip_blank_app by assumption. reflexivity.
  - destruct (isspace c); [exact IH|].
    right. split; [discriminate | reflexivity].
Qed.

Lemma rstrip_app_blank x w : blank w -> rstrip (x ++ w) = rstrip x.
Proof.
  intros Hw. unfold rstrip. rewrite rev_app_distr.
  rewrite lstrip_blank_app by (apply blank_rev, Hw). reflexivity.
Qed.

Lemma rstrip_tight s : tight_last s -> rstrip s = s.
Proof.
  intros H. unfold rstrip. rewrite lstrip_tight by exact H. apply rev_involutive.
Qed.

Lemma rstrip_app_tight a y : tight_last a -> rstrip (a ++ y) = a ++ rstrip y.
Proof.
  intros Ha. unfold rstrip. rewrite rev_app_distr.
  rewrite lstrip_app_tight by exact Ha.
  rewrite rev_app_distr, rev_involutive. reflexivity.
Qed.

Lemma rstrip_split s :
  exists w, s = rstrip s ++ w /\ blank w /\ tight_last (rstrip s).
Proof.
  destruct (lstrip_split (rev s)) as (l & Hs & Hl & Ht).
  exists (rev l). unfold rstrip, tight_last. rewrite rev_involutive.
  repeat split; auto using blank_rev.
  rewrite <- rev_app_distr, <- Hs, rev_involutive. reflexivity.
Qed.

Lemma tight_head_rstrip s : tight_head s -> tight_head (rstrip s).
Proof.
  intros Hs. destruct (rstrip_split s) as (w & Hw & Hb & _).
  destruct (rstrip s) as [|c r] eqn:E; simpl; [exact I|].
  rewrite Hw in Hs. exact Hs.
Qed.

(** [strip] cuts a blank prefix and a blank suffix, and leaves a text
    with no white space at either end. *)
Lemma strip_split s :
  exists l w, s = l ++ strip s ++ w /\ blank l /\ blank w
              /\ tight_head (strip s) /\ tight_last (strip s).
Proof.
  destruct (lstrip_split s) as (l & Hs & Hl & Ht).
  destruct (rstrip_split (lstrip s)) as (w & Hw & Hb & Hr).
  exists l, w. unfold strip. repeat split; auto.
  - rewrite <- Hw. exact Hs.
  - apply tight_head_rstrip, Ht.
Qed.

Lemma strip_tight s : tight_head s -> tight_last s -> strip s = s.
Proof.
  intros Hh Hl. unfold strip. rewrite lstrip_tight by exact Hh.
  apply rstrip_tight, Hl.
Qed.

Lemma strip_idem s : strip (strip s) = strip s.
Proof.
  destruct (strip_split s) as (l & w & _ & _ & _ & Hh & Hl).
  apply strip_tight; assumption.
Qed.

(** White space around a text does not change what [strip] returns. *)
Lemma strip_blank_around l x w :
  blank l -> blank w -> strip (l ++ x ++ w) = strip x.
Proof.
  intros Hl Hw. unfold strip. rewrite lstrip_blank_app by exact Hl.
  destruct (lstrip_app_blank x w Hw) as [[E1 E2] | [_ E2]]; rewrite E2.
  - rewrite E1. reflexivity.
  - apply rstrip_app_blank, Hw.
Qed.

Lemma strip_blank_around_tight l x w :
  blank l -> blank w -> tight_head x -> tight_last x ->
  strip (l ++ x ++ w) = x.
Proof.
  intros. rewrite strip_blank_around by assumption. apply strip_tight; assumption.
Qed.

Lemma startswith_app p x : startswith p (p ++ x) = true.
Proof.
  induction p as [|a p IH]; simpl; [reflexivity|].
  rewrite N.eqb_refl. exact IH.
Qed.

Lemma startswith_split p s :
  startswith p s = true -> exists x, s = p ++ x.
Proof.
  revert s. induction p as [|a p IH]; intros s H.
  - exists s. reflexivity.
  - destruct s as [|b s]; simpl in H; [discriminate|].
    apply andb_true_iff in H. destruct H as [Hab H].
    apply N.eqb_eq in Hab. subst b.
    destruct (IH _ H) as [x ->]. exists x. reflexivity.
Qed.

Lemma endswith_app p x : endswith p (x ++ p) = true.
Proof.
  unfold endswith. rewrite rev_app_distr. apply startswith_app.
Qed.

Lemma endswith_split p s :
  endswith p s = true -> exists x, s = x ++ p.
Proof.
  unfold endswith. intros H. apply startswith_split in H.
  destruct H as [x Hx]. exists (rev x).
  rewrite <- (rev_involutive s), Hx, rev_app_distr, rev_involutive. reflexivity.
Qed.

Lemma removeprefix_app p x : removeprefix p (p ++ x) = x.
Proof.
  unfold removeprefix. rewrite startswith_app.
  rewrite skipn_app, skipn_all, Nat.sub_diag. reflexivity.
Qed.

Lemma removesuffix_app p x : removesuffix p (x ++ p) = x.
Proof.
  unfold removesuffix. rewrite endswith_app.
  rewrite length_app, Nat.add_sub.
  rewrite firstn_app, Nat.sub_diag, firstn_all. simpl. apply app_nil_r.
Qed.

End StrFacts.

(** ** The decoder and inert trailing characters *)

Module JsonFacts.
Import json StrFacts.

Lemma blank_inert w : blank w -> inert w.
Proof.
  apply Forall_impl. intros c H. unfold trailer. rewrite H. reflexivity.
Qed.

Lemma inert_tail c w : inert (c :: w) -> inert w.
Proof. intros H. inversion H. assumption. Qed.

Lemma inert_head c w : inert (c :: w) -> trailer c = true.
Proof. intros H. inversion H. assumption. Qed.

Lemma trailer_neq c k : trailer c = true -> trailer k = false -> (c =? k)%N = false.
Proof. intros H1 H2. apply N.eqb_neq. intros ->. congruence. Qed.

Lemma trailer_range c lo hi :
  trailer c = true ->
  forallb (fun k => negb (trailer k)) (map N.of_nat (seq (N.to_nat lo) (S (N.to_nat hi - N.to_nat lo)))) = true ->
  ((lo <=? c) && (c <=? hi))%N = false.
Proof.
  intros Hc Hall. destruct ((lo <=? c) && (c <=? hi))%N eqn:E; [|reflexivity].
  apply andb_true_iff in E. destruct E as [E1 E2].
  apply N.leb_le in E1. apply N.leb_le in E2.
  rewrite forallb_forall in Hall.
  assert (In c (map N.of_nat (seq (N.to_nat lo) (S (N.to_nat hi - N.to_nat lo))))) as Hin.
  { apply in_map_iff. exists (N.to_nat c). split; [apply N2Nat.id|].
    apply in_seq. lia. }
  apply Hall in Hin. rewrite Hc in Hin. discriminate.
Qed.

Lemma trailer_not_digit c : trailer c = true -> isdigit c = false.
Proof. intros H. unfold isdigit. apply trailer_range; [exact H | reflexivity]. Qed.

Lemma trailer_not_hex c : trailer c = true -> hexval c = None.
Proof.
  intros H. unfold hexval.
  rewrite (trailer_range c 48%N 57%N H eq_refl).
  rewrite (trailer_range c 97%N 102%N H eq_refl).
  rewrite (trailer_range c 65%N 70%N H eq_refl). reflexivity.
Qed.

(** Rewrite away every comparison of a trailer character with a
    character of the JSON syntax. *)
Ltac trailer_tests c H :=
  repeat match goal with
         | |- context [(c =? ?k)%N] => rewrite (trailer_neq c k H eq_refl)
         end.

Lemma trailer_not_escape c : trailer c = true -> unescape c = None.
Proof. intros H. unfold unescape. trailer_tests c H. reflexivity. Qed.

Lemma decode_uXXXX_cut s w cp r :
  inert w ->
  decode_uXXXX (s ++ w) = Some (cp, r) ->
  exists r0, r = r0 ++ w /\ decode_uXXXX s = Some (cp, r0)
             /\ length s = 4 + length r0.
Proof.
  intros Hw H.
  assert (forall x, inert x -> decode_uXXXX x = None) as Hnone.
  { intros x Hx. destruct x as [|a [|b [|c [|d x]]]]; try reflexivity.
    simpl. rewrite (trailer_not_hex a) by (inversion Hx; assumption). reflexivity. }
  destruct s as [|h1 s].
  { simpl in H. rewrite Hnone in H by assumption. discriminate. }
  destruct s as [|h2 s].
  { simpl in H. destruct w as [|a [|b [|c w]]]; try discriminate.
    rewrite (trailer_not_hex a) in H by (inversion Hw; assumption).
    destruct (hexval h1); discriminate. }
  destruct s as [|h3 s].
  { simpl in H. destruct w as [|a [|b w]]; try discriminate.
    rewrite (trailer_not_hex a) in H by (inversion Hw; assumption).
    destruct (hexval h1), (hexval h2); discriminate. }
  destruct s as [|h4 s].
  { simpl in H. destruct w as [|a w]; try discriminate.
    rewrite (trailer_not_hex a) in H by (inversion Hw; assumption).
    destruct (hexval h1), (hexval h2), (hexval h3); discriminate. }
  simpl in H |- *. exists s.
  destruct (hexval h1), (hexval h2), (hexval h3), (hexval h4); try discriminate.
  inversion H. auto.
Qed.

(** A string literal ends inside the text that precedes a trailer, and
    is read the same without the trailer. *)
Lemma scanstring_cut k :
  forall s w acc x r k',
    inert w ->
    scanstring k (s ++ w) acc = Parsed x r ->
    length s < k' ->
    exists r0, r = r0 ++ w /\ length r0 < length s
               /\ scanstring k' s acc = Parsed x r0.
Proof.
  induction k as [|k IHk]; intros s w acc x r k' Hw H Hk; [discriminate|].
  assert (forall w' a, inert w' -> scanstring k w' a <> Parsed x r) as Hout.
  { intros w' a Hw' Ha. destruct (IHk [] w' a x r 1 Hw' Ha) as (r0 & _ & Hl & _);
      [simpl; lia | simpl in Hl; lia]. }
  assert (forall s' a, length s' < length s ->
            scanstring k (s' ++ w) a = Parsed x r ->
            exists r0, r = r0 ++ w /\ length r0 < length s
                       /\ scanstring (pred k') s' a = Parsed x r0) as Hrec.
  { intros s' a Hs' Ha.
    destruct (IHk s' w a x r (pred k') Hw Ha) as (r0 & E & Hl & Hr); [lia|].
    exists r0. repeat split; [exact E | lia | exact Hr]. }
  destruct k' as [|k']; [lia|]. simpl pred in Hrec. clear IHk.
  destruct s as [|c t].
  { destruct w as [|c w]; [discriminate|]. simpl in H.
    pose proof (inert_head _ _ Hw) as Hc. apply inert_tail in Hw.
    rewrite (trailer_neq c 34%N Hc eq_refl), (trailer_neq c 92%N Hc eq_refl) in H.
    destruct (c <=? 31)%N; [discriminate|].
    exfalso. exact (Hout w _ Hw H). }
  simpl in H |- *.
  destruct (c =? 34)%N.
  { inversion H; subst. exists t. repeat split. simpl; lia. }
  destruct (c =? 92)%N.
  2:{ destruct (c <=? 31)%N; [discriminate|]. apply Hrec; [simpl in *; lia | exact H]. }
  destruct t as [|e t1].
  { destruct w as [|e w]; [discriminate|]. simpl in H.
    pose proof (inert_head _ _ Hw) as He.
    rewrite (trailer_neq e 117%N He eq_refl), (trailer_not_escape e He) in H.
    discriminate. }
  simpl in H.
  destruct (e =? 117)%N.
  2:{ destruct (unescape e); [|discriminate]. apply Hrec; [simpl in *; lia | exact H]. }
  destruct (decode_uXXXX (t1 ++ w)) as [[cp t2]|] eqn:D; [|discriminate].
  destruct (decode_uXXXX_cut _ _ _ _ Hw D) as (t2' & -> & D' & Hlen).
  rewrite D'. clear D D'.
  destruct (is_high_surrogate cp).
  2:{ apply Hrec; [simpl in *; lia | exact H]. }
  destruct t2' as [|b [|u t3]].
  - exfalso. simpl in H.
    destruct w as [|b [|u w']]; try exact (Hout _ _ Hw H).
    assert (trailer u = true) as Hu
        by (apply inert_tail in Hw; exact (inert_head _ _ Hw)).
    rewrite (trailer_neq u 117%N Hu eq_refl), andb_false_r in H.
    exact (Hout _ _ Hw H).
  - apply Hrec; [simpl in *; lia|]. simpl in H |- *.
    destruct w as [|u w']; [exact H|].
    pose proof (inert_head _ _ Hw) as Hu.
    rewrite (trailer_neq u 117%N Hu eq_refl), andb_false_r in H. exact H.
  - simpl in H.
    destruct ((b =? 92) && (u =? 117))%N.
    2:{ apply Hrec; [simpl in *; lia | exact H]. }
    destruct (decode_uXXXX (t3 ++ w)) as [[cp2 t4]|] eqn:D; [|discriminate].
    destruct (decode_uXXXX_cut _ _ _ _ Hw D) as (t4' & -> & D' & Hlen').
    rewrite D'.
    destruct (is_low_surrogate cp2); (apply Hrec; [simpl in *; lia | exact H]).
Qed.

Lemma span_digits_inert w : inert w -> span_digits w = ([], w).
Proof.
  destruct w as [|c w]; intros Hw; [reflexivity|]. simpl.
  rewrite (trailer_not_digit c (inert_head _ _ Hw)). reflexivity.
Qed.

Lemma span_digits_cut s w :
  inert w ->
  span_digits (s ++ w) = (fst (span_digits s), snd (span_digits s) ++ w).
Proof.
  intros Hw. induction s as [|c s IH]; simpl.
  - apply span_digits_inert, Hw.
  - destruct (isdigit c); [|reflexivity].
    rewrite IH. destruct (span_digits s). reflexivity.
Qed.

Lemma span_digits_length s : length (snd (span_digits s)) <= length s.
Proof.
  induction s as [|c s IH]; simpl; [lia|].
  destruct (isdigit c); [|simpl; lia].
  destruct (span_digits s). simpl in *. lia.
Qed.

Lemma match_integer_cut s w :
  inert w ->
  match_integer (s ++ w) =
  match match_integer s with
  | Some (i, r0) => Some (i, r0 ++ w)
  | None => None
  end.
Proof.
  intros Hw. destruct s as [|c t].
  - destruct w as [|c w]; [reflexivity|]. simpl.
    pose proof (inert_head _ _ Hw) as Hc.
    rewrite (trailer_range c 49%N 57%N Hc eq_refl).
    rewrite (trailer_neq c 48%N Hc eq_refl). reflexivity.
  - simpl. destruct ((49 <=? c) && (c <=? 57))%N.
    + rewrite span_digits_cut by exact Hw.
      destruct (span_digits t) as [d r0]. reflexivity.
    + destruct (c =? 48)%N; reflexivity.
Qed.

Lemma match_integer_length s i r :
  match_integer s = Some (i, r) -> length r < length s.
Proof.
  destruct s as [|c t]; simpl; [discriminate|].
  destruct ((49 <=? c) && (c <=? 57))%N.
  - pose proof (span_digits_length t) as Hl.
    destruct (span_digits t) as [d r0]. intros H. inversion H; subst.
    simpl in Hl. lia.
  - destruct (c =? 48)%N; [|discriminate].
    intros H. inversion H; subst. lia.
Qed.

Lemma match_frac_cut s w :
  inert w ->
  match_frac (s ++ w) = (fst (match_frac s), snd (match_frac s) ++ w).
Proof.
  intros Hw. destruct s as [|dot [|d1 t]].
  - destruct w as [|dot [|d1 w]]; try reflexivity. simpl.
    rewrite (trailer_neq dot 46%N (inert_head _ _ Hw) eq_refl). reflexivity.
  - destruct w as [|d1 w]; [reflexivity|]. simpl.
    rewrite (trailer_not_digit d1 (inert_head _ _ Hw)), andb_false_r. reflexivity.
  - simpl. destruct ((dot =? 46)%N && isdigit d1); [|reflexivity].
    rewrite span_digits_cut by exact Hw.
    destruct (span_digits t). reflexivity.
Qed.

Lemma match_frac_length s : length (snd (match_frac s)) <= length s.
Proof.
  destruct s as [|dot [|d1 t]]; simpl; try lia.
  destruct ((dot =? 46)%N && isdigit d1); [|simpl; lia].
  pose proof (span_digits_length t). destruct (span_digits t). simpl in *. lia.
Qed.

Lemma match_exp_cut s w :
  inert w ->
  match_exp (s ++ w) = (fst (match_exp s), snd (match_exp s) ++ w).
Proof.
  intros Hw. destruct s as [|e t].
  - destruct w as [|e w]; [reflexivity|]. simpl.
    pose proof (inert_head _ _ Hw) as He.
    rewrite (trailer_neq e 101%N He eq_refl), (trailer_neq e 69%N He eq_refl).
    reflexivity.
  - simpl. destruct ((e =? 101) || (e =? 69))%N; [|reflexivity].
    destruct t as [|c t'].
    + simpl. destruct w as [|c w]; [reflexivity|].
      pose proof (inert_head _ _ Hw) as Hc.
      rewrite (trailer_neq c 45%N Hc eq_refl), (trailer_neq c 43%N Hc eq_refl).
      simpl. rewrite (trailer_not_digit c Hc). reflexivity.
    + simpl. destruct ((c =? 45) || (c =? 43))%N.
      * rewrite span_digits_cut by exact Hw.
        destruct (span_digits t') as [d r0]. simpl. destruct d; reflexivity.
      * change (c :: t' ++ w) with ((c :: t') ++ w).
        rewrite span_digits_cut by exact Hw.
        destruct (span_digits (c :: t')) as [d r0]. simpl. destruct d; reflexivity.
Qed.

Lemma match_exp_length s : length (snd (match_exp s)) <= length s.
Proof.
  destruct s as [|e t]; simpl; [lia|].
  destruct ((e =? 101) || (e =? 69))%N; [|simpl; lia].
  destruct t as [|c t'].
  - simpl. lia.
  - destruct ((c =? 45) || (c =? 43))%N.
    + pose proof (span_digits_length t').
      destruct (span_digits t') as [d r0]. destruct d; simpl in *; lia.
    + pose proof (span_digits_length (c :: t')).
      destruct (span_digits (c :: t')) as [d r0]. destruct d; simpl in *; lia.
Qed.

Lemma match_sign_cut s w :
  inert w ->
  match_sign (s ++ w) = (fst (match_sign s), snd (match_sign s) ++ w).
Proof.
  intros Hw. destruct s as [|c t].
  - destruct w as [|c w]; [reflexivity|]. simpl.
    rewrite (trailer_neq c 45%N (inert_head _ _ Hw) eq_refl). reflexivity.
  - simpl. destruct (c =? 45)%N; reflexivity.
Qed.

Lemma match_sign_length s : length (snd (match_sign s)) <= length s.
Proof.
  destruct s as [|c t]; simpl; [lia|].
  destruct (c =? 45)%N; simpl; lia.
Qed.

(** A number ends inside the text that precedes a trailer. *)
Lemma match_number_cut s w :
  inert w ->
  match_number (s ++ w) =
  match match_number s with
  | Some (v, r0) => Some (v, r0 ++ w)
  | None => None
  end.
Proof.
  intros Hw. unfold match_number.
  rewrite match_sign_cut by exact Hw.
  destruct (match_sign s) as [sign s1]. simpl.
  rewrite match_integer_cut by exact Hw.
  destruct (match_integer s1) as [[int s2]|]; [|reflexivity].
  rewrite match_frac_cut by exact Hw.
  destruct (match_frac s2) as [frac s3]. simpl.
  rewrite match_exp_cut by exact Hw.
  destruct (match_exp s3) as [exp s4]. simpl.
  destruct frac, exp; reflexivity.
Qed.

Lemma match_number_length s v r :
  match_number s = Some (v, r) -> length r < length s.
Proof.
  unfold match_number. intros H.
  pose proof (match_sign_length s) as Hl1.
  destruct (match_sign s) as [sign s1]. simpl in Hl1.
  destruct (match_integer s1) as [[int s2]|] eqn:I; [|discriminate].
  apply match_integer_length in I.
  pose proof (match_frac_length s2) as Hl3.
  destruct (match_frac s2) as [frac s3]. simpl in Hl3.
  pose proof (match_exp_length s3) as Hl4.
  destruct (match_exp s3) as [exp s4]. simpl in Hl4.
  destruct frac, exp; inversion H; subst; lia.
Qed.

(** A keyword is matched inside the text that precedes a trailer. *)
Lemma startswith_cut p s w :
  inert w ->
  forallb (fun c => negb (trailer c)) p = true ->
  startswith p (s ++ w) = startswith p s.
Proof.
  intros Hw. revert s. induction p as [|a p IH]; intros s Hp; [reflexivity|].
  simpl in Hp. apply andb_true_iff in Hp. destruct Hp as [Ha Hp].
  destruct s as [|b s].
  - destruct w as [|b w]; [reflexivity|]. simpl.
    destruct (a =? b)%N eqn:E; [|reflexivity].
    apply N.eqb_eq in E. subst b.
    rewrite (inert_head _ _ Hw) in Ha. discriminate.
  - simpl. rewrite (IH s Hp). reflexivity.
Qed.

Lemma startswith_length p s : startswith p s = true -> length p <= length s.
Proof.
  revert s. induction p as [|a p IH]; intros s H; simpl; [lia|].
  destruct s as [|b s]; simpl in H; [discriminate|].
  apply andb_true_iff in H. destruct H as [_ H]. apply IH in H. simpl. lia.
Qed.

Lemma skip_ws_length s : length (skip_ws s) <= length s.
Proof.
  induction s as [|c s IH]; simpl; [lia|].
  destruct (is_ws c); simpl; lia.
Qed.

Lemma skip_ws_inert w : inert w -> inert (skip_ws w).
Proof.
  induction 1 as [|c w Hc Hw IH]; simpl; [constructor|].
  destruct (is_ws c); [exact IH | constructor; assumption].
Qed.

(** Skipping white space before a trailer either stops inside the text,
    or runs through the text and leaves only trailer characters. *)
Lemma skip_ws_cut s w :
  inert w ->
  (exists c t, skip_ws s = c :: t /\ skip_ws (s ++ w) = (c :: t) ++ w)
  \/ (skip_ws s = [] /\ inert (skip_ws (s ++ w))).
Proof.
  intros Hw. induction s as [|c s IH]; simpl.
  - right. split; [reflexivity | apply skip_ws_inert, Hw].
  - destruct (is_ws c); [exact IH|].
    left. exists c, s. split; reflexivity.
Qed.

Lemma cuts_inert {A} (src tgt : str -> scanned A) bound w a r :
  cuts src tgt bound -> 0 < bound -> inert w -> src w <> Parsed a r.
Proof.
  intros Hc Hb Hw H. destruct (Hc [] w a r Hw H Hb) as (r0 & _ & Hl & _).
  simpl in Hl. lia.
Qed.

Section Loops.

Variables (src tgt : str -> scanned value) (bound : nat).
Hypothesis Hcuts : cuts src tgt bound.

Lemma array_loop_cut k :
  forall s w acc v r k',
    inert w ->
    array_loop src k (s ++ w) acc = Parsed v r ->
    length s < k' -> length s < bound ->
    exists r0, r = r0 ++ w /\ length r0 < length s
               /\ array_loop tgt k' s acc = Parsed v r0.
Proof.
  induction k as [|k IHk]; intros s w acc v r k' Hw H Hk Hb; [discriminate|].
  simpl in H.
  destruct (src (s ++ w)) as [v1 r1| |] eqn:E; try discriminate.
  destruct (Hcuts _ _ _ _ Hw E Hb) as (r1' & -> & Hl1 & Et).
  destruct k' as [|k']; [lia|]. simpl. rewrite Et. clear E Et.
  pose proof (skip_ws_length r1') as Hs1.
  destruct (skip_ws_cut r1' w Hw) as [(c & t & E1 & E2) | (E1 & E2)].
  2:{ exfalso. destruct (skip_ws (r1' ++ w)) as [|c t]; [discriminate|].
      pose proof (inert_head _ _ E2) as Hc.
      rewrite (trailer_neq c 93%N Hc eq_refl), (trailer_neq c 44%N Hc eq_refl) in H.
      discriminate. }
  rewrite E2 in H. rewrite E1 in Hs1 |- *. simpl in H, Hs1.
  destruct (c =? 93)%N.
  { inversion H; subst. exists t. repeat split. lia. }
  destruct (c =? 44)%N; [|discriminate].
  pose proof (skip_ws_length t) as Hs2.
  destruct (skip_ws_cut t w Hw) as [(c' & t' & E3 & E4) | (E3 & E4)].
  - rewrite E4 in H. rewrite E3 in Hs2 |- *.
    destruct (IHk _ _ _ _ _ k' Hw H) as (r0 & -> & Hl & Hr); [lia | lia |].
    exists r0. repeat split; [lia | exact Hr].
  - exfalso.
    destruct (IHk [] _ _ _ _ 1 E4 H) as (r0 & _ & Hl & _); simpl in *; lia.
Qed.

Lemma parse_array_cut k :
  forall s w v r k',
    inert w ->
    parse_array src k (s ++ w) = Parsed v r ->
    length s < k' -> length s < bound ->
    exists r0, r = r0 ++ w /\ length r0 < S (length s)
               /\ parse_array tgt k' s = Parsed v r0.
Proof.
  intros s w v r k' Hw H Hk Hb. unfold parse_array in *.
  pose proof (skip_ws_length s) as Hs.
  destruct (skip_ws_cut s w Hw) as [(c & t & E1 & E2) | (E1 & E2)].
  - rewrite E2 in H. rewrite E1 in Hs |- *. simpl in H, Hs.
    destruct (c =? 93)%N.
    + inversion H; subst. exists t. repeat split. lia.
    + destruct (array_loop_cut k (c :: t) w [] v r k' Hw H) as (r0 & -> & Hl & Hr);
        [simpl; lia | simpl; lia |].
      exists r0. repeat split; [simpl in Hl; lia | exact Hr].
  - exfalso. destruct (skip_ws (s ++ w)) as [|c t]; [discriminate|].
    pose proof (inert_head _ _ E2) as Hc.
    rewrite (trailer_neq c 93%N Hc eq_refl) in H.
    destruct (array_loop_cut k [] (c :: t) [] v r 1 E2 H) as (r0 & _ & Hl & _);
      simpl in *; lia.
Qed.

Lemma object_loop_cut k :
  forall s w d v r k',
    inert w ->
    object_loop src k (s ++ w) d = Parsed v r ->
    length s < k' -> length s < bound ->
    exists r0, r = r0 ++ w /\ length r0 < length s
               /\ object_loop tgt k' s d = Parsed v r0.
Proof.
  induction k as [|k IHk]; intros s w d v r k' Hw H Hk Hb; [discriminate|].
  destruct s as [|c s1].
  { exfalso. destruct w as [|c w]; [discriminate|]. simpl in H.
    rewrite (trailer_neq c 34%N (inert_head _ _ Hw) eq_refl) in H. discriminate. }
  simpl in H. destruct k' as [|k']; [lia|]. simpl.
  destruct (c =? 34)%N; [|discriminate].
  (* the key *)
  destruct (scanstring k (s1 ++ w) []) as [key s2| |] eqn:E; try discriminate.
  destruct (scanstring_cut k s1 w [] key s2 k' Hw E) as (s2' & -> & Hl2 & E');
    [simpl in Hk; lia|].
  rewrite E'. clear E E'.
  (* the colon *)
  pose proof (skip_ws_length s2') as Hs2.
  destruct (skip_ws_cut s2' w Hw) as [(c2 & s3 & E1 & E2) | (E1 & E2)].
  2:{ exfalso. destruct (skip_ws (s2' ++ w)) as [|c2 s3]; [discriminate|].
      rewrite (trailer_neq c2 58%N (inert_head _ _ E2) eq_refl) in H.
      discriminate. }
  rewrite E2 in H. rewrite E1 in Hs2 |- *. simpl in H, Hs2. clear E1 E2.
  destruct (c2 =? 58)%N; [|discriminate].
  (* the value *)
  pose proof (skip_ws_length s3) as Hs3.
  destruct (skip_ws_cut s3 w Hw) as [(c' & t' & E1 & E2) | (E1 & E2)].
  2:{ exfalso.
      destruct (src (skip_ws (s3 ++ w))) as [v1 s4| |] eqn:E; try discriminate.
      apply (cuts_inert _ _ _ _ _ _ Hcuts) in E; [exact E | lia | exact E2]. }
  rewrite E2 in H. rewrite E1 in Hs3 |- *. clear E1 E2.
  destruct (src ((c' :: t') ++ w)) as [v1 s4| |] eqn:E; try discriminate.
  destruct (Hcuts _ _ _ _ Hw E) as (s4' & -> & Hl4 & Et); [simpl in *; lia|].
  rewrite Et. clear E Et.
  (* the delimiter *)
  pose proof (skip_ws_length s4') as Hs4.
  destruct (skip_ws_cut s4' w Hw) as [(c3 & s5 & E1 & E2) | (E1 & E2)].
  2:{ exfalso. destruct (skip_ws (s4' ++ w)) as [|c3 s5]; [discriminate|].
      pose proof (inert_head _ _ E2) as Hc.
      rewrite (trailer_neq c3 125%N Hc eq_refl), (trailer_neq c3 44%N Hc eq_refl) in H.
      discriminate. }
  rewrite E2 in H. rewrite E1 in Hs4 |- *. simpl in H, Hs4. clear E1 E2.
  destruct (c3 =? 125)%N.
  { inversion H; subst. exists s5. repeat split. simpl in *; lia. }
  destruct (c3 =? 44)%N; [|discriminate].
  (* the next member *)
  pose proof (skip_ws_length s5) as Hs5.
  destruct (skip_ws_cut s5 w Hw) as [(c4 & t4 & E1 & E2) | (E1 & E2)].
  - rewrite E2 in H. rewrite E1 in Hs5 |- *.
    destruct (IHk _ _ _ _ _ k' Hw H) as (r0 & -> & Hl & Hr);
      [simpl in *; lia | simpl in *; lia |].
    exists r0. repeat split; [simpl in *; lia | exact Hr].
  - exfalso.
    destruct (IHk [] _ _ _ _ 1 E2 H) as (r0 & _ & Hl & _); simpl in *; lia.
Qed.

Lemma parse_object_cut k :
  forall s w v r k',
    inert w ->
    parse_object src k (s ++ w) = Parsed v r ->
    length s < k' -> length s < bound ->
    exists r0, r = r0 ++ w /\ length r0 < S (length s)
               /\ parse_object tgt k' s = Parsed v r0.
Proof.
  intros s w v r k' Hw H Hk Hb. unfold parse_object in *.
  pose proof (skip_ws_length s) as Hs.
  destruct (skip_ws_cut s w Hw) as [(c & t & E1 & E2) | (E1 & E2)].
  - rewrite E2 in H. rewrite E1 in Hs |- *. simpl in H, Hs.
    destruct (c =? 125)%N.
    + inversion H; subst. exists t. repeat split. lia.
    + destruct (object_loop_cut k (c :: t) w [] v r k' Hw H) as (r0 & -> & Hl & Hr);
        [simpl; lia | simpl; lia |].
      exists r0. repeat split; [simpl in Hl; lia | exact Hr].
  - exfalso. destruct (skip_ws (s ++ w)) as [|c t]; [discriminate|].
    pose proof (inert_head _ _ E2) as Hc.
    rewrite (trailer_neq c 125%N Hc eq_refl) in H.
    destruct (object_loop_cut k [] (c :: t) [] v r 1 E2 H) as (r0 & _ & Hl & _);
      simpl in *; lia.
Qed.

End Loops.

Lemma scan_once_unfold n c t :
  scan_once (S n) (c :: t) =
  if (c =? 34)%N then
    match scanstring n t [] with
    | Parsed x r => Parsed (PyStr x) r
    | Invalid => Invalid
    | Exhausted => Exhausted
    end
  else if (c =? 123)%N then parse_object (scan_once n) n t
  else if (c =? 91)%N then parse_array (scan_once n) n t
  else if startswith (lit "null") (c :: t) then Parsed PyNone (skipn 4 (c :: t))
  else if startswith (lit "true") (c :: t) then Parsed (PyBool true) (skipn 4 (c :: t))
  else if startswith (lit "false") (c :: t) then Parsed (PyBool false) (skipn 5 (c :: t))
  else
    match match_number (c :: t) with
    | Some (v, r) => Parsed v r
    | None =>
        if startswith (lit "NaN") (c :: t)
        then Parsed (PyFloat (lit "NaN")) (skipn 3 (c :: t))
        else if startswith (lit "Infinity") (c :: t)
        then Parsed (PyFloat (lit "Infinity")) (skipn 8 (c :: t))
        else if startswith (lit "-Infinity") (c :: t)
        then Parsed (PyFloat (lit "-Infinity")) (skipn 9 (c :: t))
        else Invalid
    end.
Proof. reflexivity. Qed.

Lemma startswith_trailer p c t :
  trailer c = true ->
  match p with a :: _ => trailer a | [] => true end = false ->
  startswith p (c :: t) = false.
Proof.
  intros Hc Ha. destruct p as [|a p]; [discriminate|]. simpl.
  destruct (a =? c)%N eqn:E; [|reflexivity].
  apply N.eqb_eq in E. subst c. congruence.
Qed.

Lemma match_number_trailer c t : trailer c = true -> match_number (c :: t) = None.
Proof.
  intros Hc. unfold match_number, match_sign.
  rewrite (trailer_neq c 45%N Hc eq_refl). simpl.
  rewrite (trailer_range c 49%N 57%N Hc eq_refl).
  rewrite (trailer_neq c 48%N Hc eq_refl). reflexivity.
Qed.

(** No JSON value begins with a trailer character. *)
Lemma scan_once_trailer n c t v r :
  trailer c = true -> scan_once n (c :: t) <> Parsed v r.
Proof.
  intros Hc H. destruct n as [|n]; [discriminate|].
  rewrite scan_once_unfold in H.
  rewrite (trailer_neq c 34%N Hc eq_refl), (trailer_neq c 123%N Hc eq_refl),
    (trailer_neq c 91%N Hc eq_refl) in H.
  rewrite (startswith_trailer (lit "null") _ _ Hc eq_refl),
    (startswith_trailer (lit "true") _ _ Hc eq_refl),
    (startswith_trailer (lit "false") _ _ Hc eq_refl),
    (startswith_trailer (lit "NaN") _ _ Hc eq_refl),
    (startswith_trailer (lit "Infinity") _ _ Hc eq_refl),
    (startswith_trailer (lit "-Infinity") _ _ Hc eq_refl) in H.
  rewrite (match_number_trailer _ _ Hc) in H. discriminate.
Qed.

Lemma skipn_cut (p s w : str) :
  startswith p s = true ->
  skipn (length p) (s ++ w) = skipn (length p) s ++ w
  /\ length (skipn (length p) s) = length s - length p.
Proof.
  intros H. apply startswith_length in H. split.
  - rewrite skipn_app. replace (length p - length s) with 0 by lia. reflexivity.
  - apply length_skipn.
Qed.

(** One JSON value ends inside the text that precedes a trailer, and is
    read the same, with any sufficient budget, without the trailer. *)
Lemma scan_once_cut n :
  forall s w v r m,
    inert w ->
    scan_once n (s ++ w) = Parsed v r ->
    length s < m ->
    exists r0, r = r0 ++ w /\ length r0 < length s
               /\ scan_once m s = Parsed v r0.
Proof.
  induction n as [|n IHn]; intros s w v r m Hw H Hm; [discriminate|].
  destruct s as [|c t].
  { exfalso. destruct w as [|c w]; [discriminate|].
    exact (scan_once_trailer _ _ _ _ _ (inert_head _ _ Hw) H). }
  destruct m as [|m]; [lia|].
  assert (cuts (scan_once n) (scan_once m) m) as Hcuts.
  { intros s' w' a' r' Hw' H' Hb. exact (IHn s' w' a' r' m Hw' H' Hb). }
  change ((c :: t) ++ w) with (c :: (t ++ w)) in H.
  rewrite scan_once_unfold in H. rewrite scan_once_unfold.
  change (c :: t ++ w) with ((c :: t) ++ w) in H.
  rewrite !startswith_cut in H by (exact Hw || reflexivity).
  rewrite match_number_cut in H by exact Hw.
  simpl in Hm.
  destruct (c =? 34)%N.
  { destruct (scanstring n (t ++ w) []) as [x r1| |] eqn:E; try discriminate.
    destruct (scanstring_cut n t w [] x r1 m Hw E) as (r0 & -> & Hl & E'); [lia|].
    rewrite E'. inversion H; subst. exists r0. repeat split. simpl; lia. }
  destruct (c =? 123)%N.
  { destruct (parse_object_cut _ _ _ Hcuts n t w v r m Hw H) as (r0 & -> & Hl & E');
      [lia | lia |].
    exists r0. repeat split; [simpl; lia | exact E']. }
  destruct (c =? 91)%N.
  { destruct (parse_array_cut _ _ _ Hcuts n t w v r m Hw H) as (r0 & -> & Hl & E');
      [lia | lia |].
    exists r0. repeat split; [simpl; lia | exact E']. }
  assert (forall (p : str) (x : value),
             startswith p (c :: t) = true -> p <> [] ->
             Parsed x (skipn (length p) ((c :: t) ++ w)) = Parsed v r ->
             exists r0, r = r0 ++ w /\ length r0 < length (c :: t)
                        /\ Parsed x (skipn (length p) (c :: t)) = Parsed v r0) as Hkw.
  { intros p x Hp Hne Hx. destruct (skipn_cut p (c :: t) w Hp) as [E1 E2].
    rewrite E1 in Hx. inversion Hx; subst.
    exists (skipn (length p) (c :: t)). repeat split.
    rewrite E2. destruct p; [congruence | simpl; lia]. }
  destruct (startswith (lit "null") (c :: t)) eqn:K1.
  { exact (Hkw (lit "null") _ K1 ltac:(discriminate) H). }
  destruct (startswith (lit "true") (c :: t)) eqn:K2.
  { exact (Hkw (lit "true") _ K2 ltac:(discriminate) H). }
  destruct (startswith (lit "false") (c :: t)) eqn:K3.
  { exact (Hkw (lit "false") _ K3 ltac:(discriminate) H). }
  pose proof (match_number_length (c :: t)) as Hnum.
  destruct (match_number (c :: t)) as [[v1 r1]|].
  { inversion H; subst. exists r1. repeat split. exact (Hnum _ _ eq_refl). }
  destruct (startswith (lit "NaN") (c :: t)) eqn:K4.
  { exact (Hkw (lit "NaN") _ K4 ltac:(discriminate) H). }
  destruct (startswith (lit "Infinity") (c :: t)) eqn:K5.
  { exact (Hkw (lit "Infinity") _ K5 ltac:(discriminate) H). }
  destruct (startswith (lit "-Infinity") (c :: t)) eqn:K6.
  { exact (Hkw (lit "-Infinity") _ K6 ltac:(discriminate) H). }
  discriminate.
Qed.

Lemma scan_once_length n s v r :
  scan_once n s = Parsed v r -> length r < length s.
Proof.
  intros H. rewrite <- (app_nil_r s) in H.
  destruct (scan_once_cut n s [] v r (S (length s)) (Forall_nil _) H)
    as (r0 & -> & Hl & _); [lia|].
  rewrite app_nil_r. exact Hl.
Qed.

(** *** The recursion budget is never used up *)

Lemma decode_uXXXX_length s cp r :
  decode_uXXXX s = Some (cp, r) -> length s = 4 + length r.
Proof.
  intros H. rewrite <- (app_nil_r s) in H.
  destruct (decode_uXXXX_cut s [] cp r (Forall_nil _) H) as (r0 & -> & _ & Hl).
  rewrite app_nil_r. exact Hl.
Qed.

Lemma scanstring_length k s acc x r :
  scanstring k s acc = Parsed x r -> length r < length s.
Proof.
  intros H. rewrite <- (app_nil_r s) in H.
  destruct (scanstring_cut k s [] acc x r (S (length s)) (Forall_nil _) H)
    as (r0 & -> & Hl & _); [lia|].
  rewrite app_nil_r. exact Hl.
Qed.

Lemma scanstring_fuel k :
  forall s acc, length s < k -> scanstring k s acc <> Exhausted.
Proof.
  induction k as [|k IHk]; intros s acc Hk; [lia|].
  destruct s as [|c t]; [discriminate|]. simpl in Hk |- *.
  assert (forall s' a, length s' <= length t -> scanstring k s' a <> Exhausted)
    as Hrec by (intros; apply IHk; lia).
  destruct (c =? 34)%N; [discriminate|].
  destruct (c =? 92)%N.
  2:{ destruct (c <=? 31)%N; [discriminate | apply Hrec; lia]. }
  destruct t as [|e t1]; [discriminate|].
  destruct (e =? 117)%N.
  2:{ destruct (unescape e); [apply Hrec; simpl; lia | discriminate]. }
  destruct (decode_uXXXX t1) as [[cp t2]|] eqn:D; [|discriminate].
  apply decode_uXXXX_length in D.
  destruct (is_high_surrogate cp); [|apply Hrec; simpl; lia].
  destruct t2 as [|b [|u t3]]; try (apply Hrec; simpl in *; lia).
  destruct ((b =? 92) && (u =? 117))%N; [|apply Hrec; simpl in *; lia].
  destruct (decode_uXXXX t3) as [[cp2 t4]|] eqn:D2; [|discriminate].
  apply decode_uXXXX_length in D2.
  destruct (is_low_surrogate cp2); apply Hrec; simpl in *; lia.
Qed.

Section Fuel.

Variables (scan : str -> scanned value) (bound : nat).
Hypothesis Hfuel : forall s, length s < bound -> scan s <> Exhausted.
Hypothesis Hlen : forall s v r, scan s = Parsed v r -> length r < length s.

Lemma array_loop_fuel k :
  forall s acc,
    length s < k -> length s < bound -> array_loop scan k s acc <> Exhausted.
Proof.
  induction k as [|k IHk]; intros s acc Hk Hb; [lia|]. simpl.
  pose proof (Hfuel s Hb) as Hf. pose proof (Hlen s) as Hl.
  destruct (scan s) as [v r| |]; [|discriminate|congruence].
  specialize (Hl v r eq_refl).
  pose proof (skip_ws_length r) as Hs.
  destruct (skip_ws r) as [|c r']; [discriminate|]. simpl in Hs.
  destruct (c =? 93)%N; [discriminate|].
  destruct (c =? 44)%N; [|discriminate].
  pose proof (skip_ws_length r'). apply IHk; lia.
Qed.

Lemma parse_array_fuel k s :
  length s < k -> length s < bound -> parse_array scan k s <> Exhausted.
Proof.
  intros Hk Hb. unfold parse_array.
  pose proof (skip_ws_length s) as Hs.
  destruct (skip_ws s) as [|c r]; [discriminate|].
  destruct (c =? 93)%N; [discriminate|].
  apply array_loop_fuel; lia.
Qed.

Lemma object_loop_fuel k :
  forall s d,
    length s < k -> length s < bound -> object_loop scan k s d <> Exhausted.
Proof.
  induction k as [|k IHk]; intros s d Hk Hb; [lia|]. simpl.
  destruct s as [|c s1]; [discriminate|]. simpl in Hk, Hb.
  destruct (c =? 34)%N; [|discriminate].
  pose proof (scanstring_fuel k s1 []) as Hf1.
  pose proof (scanstring_length k s1 []) as Hl1.
  destruct (scanstring k s1 []) as [key s2| |];
    [|discriminate|exfalso; apply Hf1; [lia | reflexivity]].
  specialize (Hl1 key s2 eq_refl).
  pose proof (skip_ws_length s2) as Hs2.
  destruct (skip_ws s2) as [|c2 s3]; [discriminate|]. simpl in Hs2.
  destruct (c2 =? 58)%N; [|discriminate].
  pose proof (skip_ws_length s3) as Hs3.
  pose proof (Hfuel (skip_ws s3)) as Hf. pose proof (Hlen (skip_ws s3)) as Hl.
  destruct (scan (skip_ws s3)) as [v s4| |];
    [|discriminate|exfalso; apply Hf; [lia | reflexivity]].
  specialize (Hl v s4 eq_refl).
  pose proof (skip_ws_length s4) as Hs4.
  destruct (skip_ws s4) as [|c3 s5]; [discriminate|]. simpl in Hs4.
  destruct (c3 =? 125)%N; [discriminate|].
  destruct (c3 =? 44)%N; [|discriminate].
  pose proof (skip_ws_length s5). apply IHk; lia.
Qed.

Lemma parse_object_fuel k s :
  length s < k -> length s < bound -> parse_object scan k s <> Exhausted.
Proof.
  intros Hk Hb. unfold parse_object.
  pose proof (skip_ws_length s) as Hs.
  destruct (skip_ws s) as [|c r]; [discriminate|].
  destruct (c =? 125)%N; [discriminate|].
  apply object_loop_fuel; lia.
Qed.

End Fuel.

Lemma scan_once_fuel n : forall s, length s < n -> scan_once n s <> Exhausted.
Proof.
  induction n as [|n IHn]; intros s Hn; [lia|].
  destruct s as [|c t]; [discriminate|]. simpl in Hn.
  rewrite scan_once_unfold.
  destruct (c =? 34)%N.
  { pose proof (scanstring_fuel n t []) as Hf.
    destruct (scanstring n t []);
      [discriminate | discriminate | exfalso; apply Hf; [lia | reflexivity]]. }
  destruct (c =? 123)%N.
  { apply (parse_object_fuel (scan_once n) n IHn (scan_once_length n)); lia. }
  destruct (c =? 91)%N.
  { apply (parse_array_fuel (scan_once n) n IHn (scan_once_length n)); lia. }
  repeat match goal with
         | |- context [if ?b then _ else _] => destruct b; [discriminate|]
         | |- context [match match_number ?x with _ => _ end] =>
             destruct (match_number x) as [[? ?]|]; [discriminate|]
         end.
  discriminate.
Qed.

(** The budget that [loads] hands to [scan_once] always suffices: the
    last branch of [loads] is never taken.  This is a fact about the
    definition, not about the recursion limit of the interpreter, which the
    definition leaves out. *)
Lemma loads_budget_suffices s : loads s <> Raises RecursionError.
Proof.
  unfold loads. destruct (startswith [65279%N] s); [discriminate|].
  pose proof (scan_once_fuel (S (length s)) (skip_ws s)) as Hf.
  pose proof (skip_ws_length s) as Hs.
  destruct (scan_once (S (length s)) (skip_ws s)) as [v r| |].
  - destruct (skip_ws r); discriminate.
  - discriminate.
  - exfalso. apply Hf; [lia | reflexivity].
Qed.

(** *** Decoding a trimmed text *)

Lemma is_ws_isspace c : is_ws c = true -> isspace c = true.
Proof.
  unfold is_ws. rewrite !orb_true_iff, !N.eqb_eq.
  intros [[[-> | ->] | ->] | ->]; reflexivity.
Qed.

Lemma isspace_trailer c : isspace c = true -> trailer c = true.
Proof. intros H. unfold trailer. rewrite H. reflexivity. Qed.

Lemma skip_ws_tight s : tight_head s -> skip_ws s = s.
Proof.
  destruct s as [|c s]; simpl; [reflexivity|]. intros Hc.
  destruct (is_ws c) eqn:E; [|reflexivity].
  apply is_ws_isspace in E. congruence.
Qed.

Lemma skip_ws_blank_app l x :
  blank l ->
  skip_ws (l ++ x) = skip_ws x
  \/ exists c t, skip_ws (l ++ x) = c :: t /\ isspace c = true.
Proof.
  induction 1 as [|c l Hc _ IH]; simpl; [left; reflexivity|].
  destruct (is_ws c); [exact IH|].
  right. exists c, (l ++ x). split; [reflexivity | exact Hc].
Qed.

Lemma skip_ws_app_nil a b :
  skip_ws (a ++ b) = [] -> skip_ws a = [] /\ skip_ws b = [].
Proof.
  induction a as [|c a IH]; simpl; [intros H; split; [reflexivity | exact H]|].
  destruct (is_ws c); [exact IH | discriminate].
Qed.

Lemma startswith_head_neq a p c s :
  (c =? a)%N = false -> startswith (a :: p) (c :: s) = false.
Proof.
  intros H. change (((a =? c)%N && startswith p s) = false).
  rewrite N.eqb_sym, H. reflexivity.
Qed.

(** A text that [json.loads] accepts is accepted, with the same value,
    after [strip]; its trimmed form neither begins nor ends with a
    backtick fence. *)
Lemma loads_strip T v :
  loads T = Returns v ->
  loads (strip T) = Returns v
  /\ startswith (lit "```json") (strip T) = false
  /\ endswith (lit "```") (strip T) = false.
Proof.
  unfold loads at 1. intros H.
  destruct (startswith [65279%N] T); [discriminate|].
  remember (S (length T)) as n eqn:Hn. clear Hn.
  destruct (scan_once n (skip_ws T)) as [v' r| |] eqn:E; try discriminate.
  destruct (skip_ws r) eqn:R; inversion H; subst v'. clear H.
  destruct (strip_split T) as (l & w & HT & Hl & Hw & Hh & Ht).
  rewrite HT in E. clear HT.
  destruct (skip_ws_blank_app l (strip T ++ w) Hl) as [E1 | (c & t & E1 & Hc)];
    rewrite E1 in E.
  2:{ exfalso. exact (scan_once_trailer _ _ _ _ _ (isspace_trailer _ Hc) E). }
  clear E1 l Hl.
  assert (inert w) as Hiw by (apply blank_inert, Hw).
  destruct (strip T) as [|c s'] eqn:Es.
  { exfalso. simpl in E.
    destruct (scan_once_cut n [] (skip_ws w) v r 1 (skip_ws_inert _ Hiw) E)
      as (r0 & _ & Hl0 & _); simpl in *; lia. }
  rewrite (skip_ws_tight ((c :: s') ++ w) Hh) in E.
  assert (trailer c = false) as Hc.
  { destruct (trailer c) eqn:Hc; [|reflexivity]. exfalso.
    exact (scan_once_trailer _ _ _ _ _ Hc E). }
  unfold trailer in Hc. apply orb_false_iff in Hc. destruct Hc as [Hc Hbom].
  apply orb_false_iff in Hc. destruct Hc as [_ Htick].
  split; [|split].
  - destruct (scan_once_cut n (c :: s') w v r (S (length (c :: s'))) Hiw E)
      as (r0 & -> & _ & E'); [lia|].
    apply skip_ws_app_nil in R. destruct R as [R _].
    unfold loads. rewrite (startswith_head_neq 65279%N [] c s' Hbom).
    rewrite (skip_ws_tight (c :: s') Hh), E', R. reflexivity.
  - exact (startswith_head_neq 96%N _ c s' Htick).
  - destruct (endswith (lit "```") (c :: s')) eqn:En; [|reflexivity]. exfalso.
    apply endswith_split in En. destruct En as [x Hx].
    rewrite Hx, <- app_assoc in E.
    assert (inert (lit "```" ++ w)) as Hiw'.
    { apply Forall_app. split; [|exact Hiw]. repeat constructor. }
    destruct (scan_once_cut n x _ v r (S (length x)) Hiw' E)
      as (r0 & -> & _ & _); [lia|].
    apply skip_ws_app_nil in R. destruct R as [_ R]. discriminate.
Qed.

End JsonFacts.

(** ** Runs of the two functions *)

Module AppFacts.
Import json app StrFacts JsonFacts.

Lemma skipn_length_app {A} (a x : list A) : skipn (length a) (a ++ x) = x.
Proof. induction a as [|y a IH]; simpl; [reflexivity | exact IH]. Qed.

(** *** What [clean_text] leaves *)

Lemma removeprefix_absent p s : startswith p s = false -> removeprefix p s = s.
Proof. intros H. unfold removeprefix. rewrite H. reflexivity. Qed.

Lemma removesuffix_absent p s : endswith p s = false -> removesuffix p s = s.
Proof. intros H. unfold removesuffix. rewrite H. reflexivity. Qed.

(** A text with no fence of its own is only trimmed. *)
Lemma clean_text_unfenced T :
  startswith (lit "```json") (strip T) = false ->
  endswith (lit "```") (strip T) = false ->
  clean_text T = strip T.
Proof.
  intros Hp Hs. unfold clean_text.
  rewrite (removeprefix_absent _ _ Hp), (removesuffix_absent _ _ Hs).
  apply strip_idem.
Qed.

(** Both markers of a [json] fence are removed, with the white space
    around them. *)
Lemma clean_text_json_fence ws1 ws2 T ws3 ws4 :
  blank ws1 -> blank ws2 -> blank ws3 -> blank ws4 ->
  clean_text (json_fence ws1 ws2 T ws3 ws4) = strip T.
Proof.
  intros H1 H2 H3 H4. unfold clean_text, json_fence.
  replace (ws1 ++ lit "```json" ++ ws2 ++ T ++ ws3 ++ lit "```" ++ ws4)
    with (ws1 ++ (lit "```json" ++ (ws2 ++ T ++ ws3) ++ lit "```") ++ ws4)
    by (rewrite <- !app_assoc; reflexivity).
  rewrite strip_blank_around_tight; try assumption.
  - rewrite removeprefix_app, removesuffix_app.
    apply strip_blank_around; assumption.
  - reflexivity.
  - unfold tight_last. rewrite !rev_app_distr. reflexivity.
Qed.

(** A fence without the [json] tag keeps its opening marker. *)
Lemma clean_text_plain_fence ws1 X ws2 :
  blank ws1 -> blank ws2 ->
  startswith (lit "json") X = false ->
  clean_text (plain_fence ws1 X ws2) = lit "```" ++ rstrip X.
Proof.
  intros H1 H2 HX. unfold clean_text, plain_fence.
  replace (ws1 ++ lit "```" ++ X ++ lit "```" ++ ws2)
    with (ws1 ++ (lit "```" ++ X ++ lit "```") ++ ws2)
    by (rewrite <- !app_assoc; reflexivity).
  rewrite strip_blank_around_tight; try assumption.
  - rewrite removeprefix_absent.
    + replace (lit "```" ++ X ++ lit "```") with ((lit "```" ++ X) ++ lit "```")
        by (rewrite <- app_assoc; reflexivity).
      rewrite removesuffix_app. unfold strip.
      rewrite lstrip_tight by reflexivity.
      apply rstrip_app_tight. reflexivity.
    + change (startswith (lit "json") (X ++ lit "```") = false).
      rewrite startswith_cut; [exact HX | repeat constructor | reflexivity].
  - reflexivity.
  - unfold tight_last. rewrite !rev_app_distr. reflexivity.
Qed.

(** A text the decoder accepts is only trimmed, and decodes to the same
    value afterwards. *)
Lemma loads_clean_text T v :
  loads T = Returns v -> loads (clean_text T) = Returns v.
Proof.
  intros H. destruct (loads_strip T v H) as (Hv & Hp & Hs).
  rewrite (clean_text_unfenced T Hp Hs). exact Hv.
Qed.

(** No JSON text begins with a backtick. *)
Lemma loads_backtick t : loads (96%N :: t) = Raises JSONDecodeError.
Proof. reflexivity. Qed.

(** *** Unfolding the program *)

Section Runs.

Variable g : genai.api.

(** Once the text of the response is read, the outcome is decided by
    decoding the cleaned text. *)
Lemma generate_siem_data_answers model nl_input language st T :
  answers g model nl_input language st T ->
  fst (generate_siem_data g model nl_input language st) =
  match loads (clean_text T) with
  | Returns v => Returns v
  | Raises e => if is_JSONDecodeError e then Returns fallback else Raises e
  end.
Proof.
  intros (resp & w1 & w2 & Hg & Ht).
  unfold generate_siem_data, bind, try_except, invoke, of_outcome, ret.
  rewrite Hg. simpl. rewrite Ht. simpl.
  destruct (loads (clean_text T)) as [v|e]; [reflexivity|].
  destruct (is_JSONDecodeError e); reflexivity.
Qed.

(** A run hands exactly one prompt to the model. *)
Lemma generate_siem_data_sent model nl_input language st :
  prompts_sent (new_calls st (generate_siem_data g model nl_input language st))
  = [prompt nl_input language].
Proof.
  unfold new_calls, generate_siem_data, bind, try_except, invoke, of_outcome, ret.
  destruct (genai.generate_content g model (prompt nl_input language) (outside st))
    as [[resp|e] w1]; simpl.
  - destruct (genai.text g resp w1) as [[T|e] w2]; simpl.
    + destruct (loads (clean_text T)) as [v|e]; simpl;
        [|destruct (is_JSONDecodeError e); simpl];
        rewrite <- app_assoc, skipn_length_app; reflexivity.
    + destruct (is_JSONDecodeError e); simpl;
        rewrite <- app_assoc, skipn_length_app; reflexivity.
  - rewrite skipn_length_app. reflexivity.
Qed.

End Runs.

End AppFacts.

(** ** Substrings *)

Module ContainsFacts.

Lemma startswith_app_l p s t :
  startswith p s = true -> startswith p (s ++ t) = true.
Proof.
  revert s. induction p as [|a p IH]; intros s H; [reflexivity|].
  destruct s as [|b s]; [discriminate|]. simpl in H |- *.
  apply andb_true_iff in H. destruct H as [Hab H].
  rewrite Hab. exact (IH s H).
Qed.

Lemma contains_app_l sub a t :
  contains sub a = true -> contains sub (a ++ t) = true.
Proof.
  induction a as [|c a IH]; simpl; intros H.
  - rewrite orb_false_r in H. destruct sub; [|discriminate].
    destruct t; reflexivity.
  - apply orb_true_iff in H. destruct H as [H | H].
    + change (startswith sub ((c :: a) ++ t) || contains sub (a ++ t) = true).
      rewrite (startswith_app_l _ _ t H). reflexivity.
    + change (startswith sub ((c :: a) ++ t) || contains sub (a ++ t) = true).
      rewrite (IH H). apply orb_true_r.
Qed.

Lemma contains_app_r sub a t :
  contains sub t = true -> contains sub (a ++ t) = true.
Proof.
  intros H. induction a as [|c a IH]; [exact H|].
  change (startswith sub (c :: a ++ t) || contains sub (a ++ t) = true).
  rewrite IH. apply orb_true_r.
Qed.

Lemma contains_head sub t : contains sub (sub ++ t) = true.
Proof.
  destruct (sub ++ t) as [|c r] eqn:E; simpl; rewrite <- E.
  - rewrite StrFacts.startswith_app. reflexivity.
  - rewrite StrFacts.startswith_app. reflexivity.
Qed.

(** Walk along a concatenation to the piece that holds the substring. *)
Ltac find_substring :=
  repeat first [ apply contains_head
               | apply contains_app_l; reflexivity
               | apply contains_app_r ].

Lemma prompt_has_language nl_input language :
  contains language (app.prompt nl_input language) = true.
Proof.
  unfold app.prompt, app.system_prompt. cbn [join_lines].
  rewrite <- !app_assoc. find_substring.
Qed.

Lemma prompt_has_guardrails nl_input language :
  contains app.guardrail_24h (app.prompt nl_input language) = true
  /\ contains app.guardrail_svc (app.prompt nl_input language) = true
  /\ contains app.guardrail_cap (app.prompt nl_input language) = true.
Proof.
  unfold app.prompt, app.system_prompt. cbn [join_lines].
  rewrite <- !app_assoc. repeat split; find_substring.
Qed.

End ContainsFacts.

(* ===================================================================== *)
(** * The specification's statements about [app.py] *)
(* ===================================================================== *)

Import json app StrFacts JsonFacts AppFacts ContainsFacts.

(** ** Response parsing *)

(** C1 (as the specification states it, refuted).  The empty answer does
    not give the record whose query is "Error parsing AI response. Please
    try again.": the query of the record returned begins with the comment
    marker "-- ".  And an answer that is a JSON array gives no fallback
    record at all: the decoded list is returned. *)
Lemma C1_fallback_text_and_array_counterexample :
  synthesize [] <> Returns fallback_without_marker
  /\ synthesize array_reply
     = Returns (PyList [PyStr (lit "Check MFA failures");
                        PyStr (lit "Correlate by IP")]).
Proof.
  split.
  - vm_compute. discriminate.
  - vm_compute. reflexivity.
Qed.

(** C1 (amended).  Whenever the decoder rejects the cleaned text of the
    answer, [generate_siem_data] returns, without raising, exactly the
    record [{"query": "-- Error parsing AI response. Please try again.",
    "recommendations": []}]. *)
Theorem C1_undecodable_answer_gives_fallback
        (g : genai.api) (model : genai.handle g) (nl_input language : str)
        (st : state g) (T : str) :
  answers g model nl_input language st T ->
  loads (clean_text T) = Raises JSONDecodeError ->
  fst (generate_siem_data g model nl_input language st) = Returns fallback.
Proof.
  intros Ha Hl. rewrite (generate_siem_data_answers g _ _ _ _ T Ha), Hl.
  reflexivity.
Qed.

Lemma C1_undecodable_answer_witness :
  synthesize truncated_reply = Returns fallback.
Proof.
  unfold synthesize.
  apply (C1_undecodable_answer_gives_fallback
           (replying (Returns (Returns truncated_reply))) preferred_model
           (lit "failed logins from new countries")
           (lit "KQL (Microsoft Sentinel)")
           (start (replying (Returns (Returns truncated_reply))) tt)
           truncated_reply).
  - exists (Returns truncated_reply), tt, tt. split; reflexivity.
  - vm_compute. reflexivity.
Defined.

(** The empty answer, an answer of white space only and a refusal in
    prose are cases of it. *)
Lemma blank_answer_undecodable T :
  blank T -> loads (clean_text T) = Raises JSONDecodeError.
Proof.
  intros HT. unfold clean_text.
  assert (strip T = []) as E.
  { replace T with ([] ++ [] ++ T) by reflexivity.
    rewrite strip_blank_around; [reflexivity | constructor | exact HT]. }
  rewrite E. reflexivity.
Qed.

Lemma refusal_answer_falls_back : synthesize refusal_reply = Returns fallback.
Proof. vm_compute. reflexivity. Qed.

(** C2.  An answer that is a JSON object [{"query": Q, "recommendations":
    [r1, ..., rn]}] with at most four recommendations is returned as the
    record with that query and those recommendations, nothing altered,
    added or dropped. *)
Theorem C2_well_formed_answer_returned_unchanged
        (g : genai.api) (model : genai.handle g) (nl_input language : str)
        (st : state g) (T Q : str) (rs : list str) :
  answers g model nl_input language st T ->
  loads T = Returns (PyDict [ (lit "query", PyStr Q);
                              (lit "recommendations", PyList (map PyStr rs)) ]) ->
  length rs <= 4 ->
  fst (generate_siem_data g model nl_input language st)
  = Returns (PyDict [ (lit "query", PyStr Q);
                      (lit "recommendations", PyList (map PyStr rs)) ]).
Proof.
  intros Ha Hl _. rewrite (generate_siem_data_answers g _ _ _ _ T Ha).
  rewrite (loads_clean_text T _ Hl). reflexivity.
Qed.

Lemma C2_well_formed_answer_witness :
  synthesize scenario_reply
  = Returns (PyDict [ (lit "query",
                       PyStr (lit "SigninLogs | where ResultType != 0 | take 100"));
                      (lit "recommendations",
                       PyList (map PyStr [lit "Check MFA failures";
                                          lit "Correlate by IP"])) ]).
Proof.
  unfold synthesize.
  apply (C2_well_formed_answer_returned_unchanged
           (replying (Returns (Returns scenario_reply))) preferred_model
           (lit "failed logins from new countries")
           (lit "KQL (Microsoft Sentinel)")
           (start (replying (Returns (Returns scenario_reply))) tt)
           scenario_reply).
  - exists (Returns scenario_reply), tt, tt. split; reflexivity.
  - vm_compute. reflexivity.
  - simpl. lia.
Defined.

(** C3 (as the specification states it, refuted).  An answer that is
    itself fenced decodes to the empty object, but wrapped once more in a
    [json] fence it gives the fallback record: only one pair of markers is
    removed. *)
Lemma C3_fenced_twice_counterexample :
  synthesize (json_fence [] newline fenced_reply newline [])
  <> synthesize fenced_reply.
Proof. vm_compute. discriminate. Qed.

(** C3 (amended).  For an answer [T] whose trimmed text neither begins
    with the opening marker of a [json] fence nor ends with a closing
    marker, wrapping [T] in a [json] fence, with any white space around
    the markers, gives the same result as [T] itself. *)
Theorem C3_json_fence_same_result
        (g g' : genai.api) (model : genai.handle g) (model' : genai.handle g')
        (nl_input language nl_input' language' : str)
        (st : state g) (st' : state g') (T ws1 ws2 ws3 ws4 : str) :
  answers g model nl_input language st (json_fence ws1 ws2 T ws3 ws4) ->
  answers g' model' nl_input' language' st' T ->
  blank ws1 -> blank ws2 -> blank ws3 -> blank ws4 ->
  startswith (lit "```json") (strip T) = false ->
  endswith (lit "```") (strip T) = false ->
  fst (generate_siem_data g model nl_input language st)
  = fst (generate_siem_data g' model' nl_input' language' st').
Proof.
  intros Ha Ha' H1 H2 H3 H4 Hp Hs.
  rewrite (generate_siem_data_answers g _ _ _ _ _ Ha).
  rewrite (generate_siem_data_answers g' _ _ _ _ _ Ha').
  rewrite clean_text_json_fence by assumption.
  rewrite (clean_text_unfenced T Hp Hs). reflexivity.
Qed.

Lemma C3_json_fence_witness :
  synthesize (json_fence [] newline scenario_reply newline [])
  = synthesize scenario_reply.
Proof.
  unfold synthesize.
  apply (C3_json_fence_same_result
           (replying (Returns (Returns (json_fence [] newline scenario_reply newline []))))
           (replying (Returns (Returns scenario_reply)))
           preferred_model preferred_model
           (lit "failed logins from new countries")
           (lit "KQL (Microsoft Sentinel)")
           (lit "failed logins from new countries")
           (lit "KQL (Microsoft Sentinel)")
           (start (replying (Returns (Returns (json_fence [] newline scenario_reply newline [])))) tt)
           (start (replying (Returns (Returns scenario_reply))) tt)
           scenario_reply [] newline newline []).
  - exists (Returns (json_fence [] newline scenario_reply newline [])), tt, tt.
    split; reflexivity.
  - exists (Returns scenario_reply), tt, tt. split; reflexivity.
  - constructor.
  - repeat constructor.
  - repeat constructor.
  - constructor.
  - vm_compute. reflexivity.
  - vm_compute. reflexivity.
Defined.

(** Every answer the decoder accepts meets the two conditions. *)
Lemma valid_answer_has_no_fence T v :
  loads T = Returns v ->
  startswith (lit "```json") (strip T) = false
  /\ endswith (lit "```") (strip T) = false.
Proof. intros H. destruct (loads_strip T v H) as (_ & Hp & Hs). auto. Qed.

(** C4 (as the specification states it, refuted).  An answer with five
    recommendations and no query is returned as it is: the record has more
    than four recommendations and no [query] entry. *)
Lemma C4_unchecked_record_counterexample :
  exists v,
    synthesize unchecked_reply = Returns v
    /\ SynthesizedResult v = false
    /\ dict_get (lit "query") (match v with PyDict d => d | _ => [] end) = None.
Proof.
  eexists. split; [vm_compute; reflexivity|].
  split; vm_compute; reflexivity.
Qed.

(** C4 (amended).  Once the text of the answer is read, a value that
    [json.loads] decodes from the cleaned text is the result as it is, with
    no check of its entries, and a [json.JSONDecodeError] gives the
    fallback record.  A value that [generate_siem_data] returns therefore
    has a [query] entry and at most four recommendations exactly when
    decoding failed (the fallback record has a query and no recommendation)
    or the decoded JSON itself has them.  When the decoder raises anything
    else, no value is returned. *)
Theorem C4_decoded_value_returned_unchecked
        (g : genai.api) (model : genai.handle g) (nl_input language : str)
        (st : state g) (T : str) :
  answers g model nl_input language st T ->
  (forall v,
      loads (clean_text T) = Returns v ->
      fst (generate_siem_data g model nl_input language st) = Returns v)
  /\ (loads (clean_text T) = Raises JSONDecodeError ->
      fst (generate_siem_data g model nl_input language st) = Returns fallback)
  /\ (forall v,
         fst (generate_siem_data g model nl_input language st) = Returns v ->
         (loads (clean_text T) = Returns v
          \/ loads (clean_text T) = Raises JSONDecodeError /\ v = fallback)
         /\ (SynthesizedResult v = true <->
             loads (clean_text T) = Raises JSONDecodeError
             \/ exists v', loads (clean_text T) = Returns v'
                           /\ SynthesizedResult v' = true)).
Proof.
  intros Ha. rewrite (generate_siem_data_answers g _ _ _ _ T Ha).
  destruct (loads (clean_text T)) as [v0|e] eqn:E.
  - split; [intros v H; exact H|]. split; [discriminate|].
    intros v H. inversion H; subst v0. split; [left; reflexivity|]. split.
    + intros Hv. right. exists v. split; [reflexivity | exact Hv].
    + intros [H' | (v' & H' & Hv')]; [discriminate|].
      inversion H'; subst. exact Hv'.
  - split; [discriminate|]. split.
    + intros H. inversion H; subst e. reflexivity.
    + intros v. destruct e; simpl; try discriminate.
      intros H. inversion H; subst v. split.
      * right. split; reflexivity.
      * split; [intros _; left; reflexivity | intros _; reflexivity].
Qed.

Lemma C4_decoded_value_witness :
  synthesize unchecked_reply
  = Returns (PyDict [(lit "recommendations",
                      PyList [PyStr (lit "a"); PyStr (lit "b"); PyStr (lit "c");
                              PyStr (lit "d"); PyStr (lit "e")])])
  /\ (SynthesizedResult
        (PyDict [(lit "recommendations",
                  PyList [PyStr (lit "a"); PyStr (lit "b"); PyStr (lit "c");
                          PyStr (lit "d"); PyStr (lit "e")])]) = true <->
      loads (clean_text unchecked_reply) = Raises JSONDecodeError
      \/ exists v', loads (clean_text unchecked_reply) = Returns v'
                    /\ SynthesizedResult v' = true).
Proof.
  destruct (C4_decoded_value_returned_unchecked
              (replying (Returns (Returns unchecked_reply))) preferred_model
              (lit "failed logins from new countries")
              (lit "KQL (Microsoft Sentinel)")
              (start (replying (Returns (Returns unchecked_reply))) tt)
              unchecked_reply)
    as (Hdecoded & _ & Hreturned).
  - exists (Returns unchecked_reply), tt, tt. split; reflexivity.
  - assert (synthesize unchecked_reply
            = Returns (PyDict [(lit "recommendations",
                                PyList [PyStr (lit "a"); PyStr (lit "b");
                                        PyStr (lit "c"); PyStr (lit "d");
                                        PyStr (lit "e")])])) as Hrun.
    { apply Hdecoded. vm_compute. reflexivity. }
    split; [exact Hrun | exact (proj2 (Hreturned _ Hrun))].
Defined.

(** C10.  A fence without the [json] tag keeps its opening marker through
    cleaning, so the cleaned text is no JSON and the fallback record is
    returned instead of the content of the fence. *)
Theorem C10_plain_fence_gives_fallback
        (g : genai.api) (model : genai.handle g) (nl_input language : str)
        (st : state g) (ws1 X ws2 : str) :
  answers g model nl_input language st (plain_fence ws1 X ws2) ->
  blank ws1 -> blank ws2 ->
  startswith (lit "json") X = false ->
  startswith (lit "```") (clean_text (plain_fence ws1 X ws2)) = true
  /\ loads (clean_text (plain_fence ws1 X ws2)) = Raises JSONDecodeError
  /\ fst (generate_siem_data g model nl_input language st) = Returns fallback.
Proof.
  intros Ha H1 H2 HX.
  rewrite (generate_siem_data_answers g _ _ _ _ _ Ha).
  rewrite (clean_text_plain_fence ws1 X ws2 H1 H2 HX).
  split; [apply startswith_app|].
  change (lit "```" ++ rstrip X) with (96%N :: (lit "``" ++ rstrip X)).
  rewrite loads_backtick. split; reflexivity.
Qed.

Lemma C10_plain_fence_witness :
  startswith (lit "```")
    (clean_text (plain_fence [] (newline ++ scenario_reply ++ newline) [])) = true
  /\ loads (clean_text (plain_fence [] (newline ++ scenario_reply ++ newline) []))
     = Raises JSONDecodeError
  /\ synthesize (plain_fence [] (newline ++ scenario_reply ++ newline) [])
     = Returns fallback.
Proof.
  unfold synthesize.
  apply (C10_plain_fence_gives_fallback
           (replying (Returns (Returns
              (plain_fence [] (newline ++ scenario_reply ++ newline) []))))
           preferred_model
           (lit "failed logins from new countries")
           (lit "KQL (Microsoft Sentinel)")
           (start (replying (Returns (Returns
              (plain_fence [] (newline ++ scenario_reply ++ newline) [])))) tt)
           [] (newline ++ scenario_reply ++ newline) []).
  - exists (Returns (plain_fence [] (newline ++ scenario_reply ++ newline) [])),
      tt, tt. split; reflexivity.
  - constructor.
  - constructor.
  - vm_compute. reflexivity.
Defined.

(** C9.  An exception raised while the answer is obtained, by the
    generation call or by reading [response.text], that is not a
    [json.JSONDecodeError] is not turned into the fallback record: it
    reaches the caller. *)
Theorem C9_other_exceptions_propagate
        (g : genai.api) (model : genai.handle g) (nl_input language : str)
        (st : state g) (e : exn) :
  obtaining_raises g model nl_input language st e ->
  is_JSONDecodeError e = false ->
  fst (generate_siem_data g model nl_input language st) = Raises e.
Proof.
  intros [(w1 & Hg) | (resp & w1 & w2 & Hg & Ht)] He;
    unfold generate_siem_data, bind, try_except, invoke, of_outcome, ret;
    rewrite Hg; simpl; [reflexivity|].
  rewrite Ht. simpl. rewrite He. reflexivity.
Qed.

Lemma C9_other_exceptions_witness :
  fst (generate_siem_data (replying (Returns (Raises (OtherException 400))))
         preferred_model (lit "failed logins from new countries")
         (lit "KQL (Microsoft Sentinel)")
         (start (replying (Returns (Raises (OtherException 400)))) tt))
  = Raises (OtherException 400).
Proof.
  apply (C9_other_exceptions_propagate
           (replying (Returns (Raises (OtherException 400)))) preferred_model
           (lit "failed logins from new countries")
           (lit "KQL (Microsoft Sentinel)")
           (start (replying (Returns (Raises (OtherException 400)))) tt)
           (OtherException 400)).
  - right. exists (Raises (OtherException 400)), tt, tt. split; reflexivity.
  - reflexivity.
Defined.

(** A [json.JSONDecodeError] raised by reading [response.text] is inside
    the [try] block and is absorbed like a decoding failure. *)
Lemma decode_error_from_text_absorbed
      (g : genai.api) (model : genai.handle g) (nl_input language : str)
      (st : state g) resp w1 w2 :
  genai.generate_content g model (prompt nl_input language) (outside st)
    = (Returns resp, w1) ->
  genai.text g resp w1 = (Raises JSONDecodeError, w2) ->
  fst (generate_siem_data g model nl_input language st) = Returns fallback.
Proof.
  intros Hg Ht.
  unfold generate_siem_data, bind, try_except, invoke, of_outcome, ret.
  rewrite Hg. simpl. rewrite Ht. reflexivity.
Qed.

(** ** Prompt construction *)

(** C5.  For each of the four languages of the selector and every
    request, the prompt handed to the model contains the three guardrail
    clauses (last 24 hours, accounts starting with "svc_", 100 results) and
    the language label. *)
Theorem C5_prompt_has_guardrails_and_language
        (g : genai.api) (model : genai.handle g) (st : state g)
        (nl_input language : str) :
  In language siem_languages ->
  exists p,
    prompts_sent (new_calls st (generate_siem_data g model nl_input language st))
      = [p]
    /\ contains guardrail_24h p = true
    /\ contains guardrail_svc p = true
    /\ contains guardrail_cap p = true
    /\ contains language p = true.
Proof.
  intros _. exists (prompt nl_input language).
  destruct (prompt_has_guardrails nl_input language) as (H1 & H2 & H3).
  repeat split; try assumption.
  - apply generate_siem_data_sent.
  - apply prompt_has_language.
Qed.

Lemma C5_prompt_witness :
  exists p,
    prompts_sent
      (new_calls (start (replying (Returns (Returns scenario_reply))) tt)
         (generate_siem_data (replying (Returns (Returns scenario_reply)))
            preferred_model (lit "failed logins from new countries")
            (lit "Splunk SPL")
            (start (replying (Returns (Returns scenario_reply))) tt)))
      = [p]
    /\ contains guardrail_24h p = true
    /\ contains guardrail_svc p = true
    /\ contains guardrail_cap p = true
    /\ contains (lit "Splunk SPL") p = true.
Proof.
  apply (C5_prompt_has_guardrails_and_language
           (replying (Returns (Returns scenario_reply))) preferred_model
           (start (replying (Returns (Returns scenario_reply))) tt)
           (lit "failed logins from new countries") (lit "Splunk SPL")).
  simpl. auto.
Defined.

(** C6.  The text handed to the model depends on the request and the
    language only: two runs with the same pair, on any backends in any
    states, submit the same text, which is [prompt nl_input language]. *)
Theorem C6_prompt_deterministic
        (g1 g2 : genai.api) (model1 : genai.handle g1) (model2 : genai.handle g2)
        (st1 : state g1) (st2 : state g2) (nl_input language : str) :
  prompts_sent (new_calls st1 (generate_siem_data g1 model1 nl_input language st1))
  = prompts_sent (new_calls st2 (generate_siem_data g2 model2 nl_input language st2))
  /\ prompts_sent (new_calls st1 (generate_siem_data g1 model1 nl_input language st1))
     = [prompt nl_input language].
Proof.
  rewrite !generate_siem_data_sent. split; reflexivity.
Qed.

(** ** Model selection *)

(** C7.  Once the client is configured, [initialize_ai] runs its
    fallback if and only if constructing the handle of the preferred model
    raises.  When that construction returns a handle, the handle is the
    result and nothing else is called: the models are not listed and no
    second handle is constructed.  When it raises, the models of the
    backend are listed, and if the listing returns models of which [m] is
    the first, in the order of the listing, to support content generation,
    a handle is constructed for the name of [m] and the outcome of that
    construction is the result. *)
Theorem C7_fallback_iff_preferred_raises
        (g : genai.api) (api_key : str) (st : state g) (w1 : genai.world g) :
  genai.configure g api_key (outside st) = (Returns tt, w1) ->
  (In ListModels (new_calls st (initialize_ai g api_key st)) <->
   exists e w2, genai.GenerativeModel g preferred_model w1 = (Raises e, w2))
  /\ (forall h w2,
         genai.GenerativeModel g preferred_model w1 = (Returns h, w2) ->
         fst (initialize_ai g api_key st) = Returns h
         /\ ~ In ListModels (new_calls st (initialize_ai g api_key st))
         /\ new_calls st (initialize_ai g api_key st)
            = [Configure api_key; NewGenerativeModel preferred_model])
  /\ (forall e w2 skipped m rest w3,
         genai.GenerativeModel g preferred_model w1 = (Raises e, w2) ->
         genai.list_models g w2 = (Returns (skipped ++ m :: rest), w3) ->
         Forall (fun m' => supports_generateContent m' = false) skipped ->
         supports_generateContent m = true ->
         fst (initialize_ai g api_key st)
         = fst (genai.GenerativeModel g (genai.name m) w3)
         /\ outside (snd (initialize_ai g api_key st))
            = snd (genai.GenerativeModel g (genai.name m) w3)
         /\ new_calls st (initialize_ai g api_key st)
            = [Configure api_key; NewGenerativeModel preferred_model;
               ListModels; NewGenerativeModel (genai.name m)]).
Proof.
  intros Hc.
  unfold new_calls, initialize_ai, bind, try_except, invoke, raise, Exception.
  rewrite Hc. simpl.
  destruct (genai.GenerativeModel g preferred_model w1) as [[h|e] w2] eqn:Hb; simpl.
  - rewrite <- app_assoc, skipn_length_app. simpl. split; [|split].
    + split.
      * intros [H | [H | []]]; discriminate.
      * intros (e & w & H). discriminate.
    + intros h' w' H. inversion H; subst. split; [reflexivity|].
      split; [|reflexivity].
      intros [H' | [H' | []]]; discriminate.
    + intros e w H. discriminate.
  - split; [|split].
    + split; [intros _; exists e, w2; reflexivity | intros _].
      destruct (genai.list_models g w2) as [[ms|e'] w3]; simpl.
      * destruct (map genai.name (filter supports_generateContent ms))
          as [|first rest]; simpl.
        -- rewrite <- !app_assoc, skipn_length_app. simpl. auto.
        -- destruct (genai.GenerativeModel g first w3) as [r w4]. simpl.
           rewrite <- !app_assoc, skipn_length_app. simpl. auto.
      * rewrite <- !app_assoc, skipn_length_app. simpl. auto.
    + intros h w H. discriminate.
    + intros e0 w skipped m rest w3 H Hl Hsk Hm. inversion H; subst e0 w.
      assert (filter supports_generateContent (skipped ++ m :: rest)
              = m :: filter supports_generateContent rest) as Hf.
      { rewrite filter_app. simpl. rewrite Hm.
        replace (filter supports_generateContent skipped)
          with (@nil genai.Model); [reflexivity|].
        symmetry. clear Hl.
        induction Hsk as [|m' sk Hm' _ IH]; simpl; [reflexivity|].
        rewrite Hm'. exact IH. }
      rewrite Hl. simpl. rewrite Hf. simpl.
      destruct (genai.GenerativeModel g (genai.name m) w3) as [r w4]. simpl.
      split; [reflexivity|]. split; [reflexivity|].
      rewrite <- !app_assoc, skipn_length_app. reflexivity.
Qed.

Lemma C7_fallback_witness :
  In ListModels
     (new_calls (start (script.with_fallback_models (Returns (Returns []))) tt)
        (initialize_ai (script.with_fallback_models (Returns (Returns [])))
           (lit "key")
           (start (script.with_fallback_models (Returns (Returns []))) tt)))
  /\ fst (initialize_ai (script.with_fallback_models (Returns (Returns [])))
            (lit "key")
            (start (script.with_fallback_models (Returns (Returns []))) tt))
     = Returns (lit "models/gemini-pro")
  /\ new_calls (start (script.with_fallback_models (Returns (Returns []))) tt)
       (initialize_ai (script.with_fallback_models (Returns (Returns [])))
          (lit "key")
          (start (script.with_fallback_models (Returns (Returns []))) tt))
     = [Configure (lit "key"); NewGenerativeModel preferred_model; ListModels;
        NewGenerativeModel (lit "models/gemini-pro")].
Proof.
  destruct (C7_fallback_iff_preferred_raises
              (script.with_fallback_models (Returns (Returns []))) (lit "key")
              (start (script.with_fallback_models (Returns (Returns []))) tt) tt)
    as (Hiff & _ & Hbind).
  - reflexivity.
  - split.
    + apply Hiff. exists (OtherException 404), tt. reflexivity.
    + destruct (Hbind (OtherException 404) tt
                  [ {| genai.name := lit "models/embedding-001";
                       genai.supported_generation_methods :=
                         Some [lit "embedContent"] |} ]
                  {| genai.name := lit "models/gemini-pro";
                     genai.supported_generation_methods :=
                       Some [lit "generateContent"; lit "countTokens"] |}
                  [ {| genai.name := lit "models/gemini-ultra";
                       genai.supported_generation_methods :=
                         Some [lit "generateContent"] |} ]
                  tt)
        as (Hresult & _ & Hcalls).
      * reflexivity.
      * reflexivity.
      * repeat constructor.
      * reflexivity.
      * split; [exact Hresult | exact Hcalls].
Defined.

(** When the preferred model binds, its handle is returned after two
    calls, none of them the enumeration. *)
Lemma preferred_model_binds :
  fst (initialize_ai (replying (Returns (Returns scenario_reply))) (lit "key")
         (start (replying (Returns (Returns scenario_reply))) tt))
  = Returns preferred_model
  /\ calls (snd (initialize_ai (replying (Returns (Returns scenario_reply)))
                   (lit "key")
                   (start (replying (Returns (Returns scenario_reply))) tt)))
     = [Configure (lit "key"); NewGenerativeModel preferred_model].
Proof. split; reflexivity. Qed.

(** C8.  If constructing the preferred handle raises [e] and no listed
    model supports content generation, [initialize_ai] raises the same [e]
    and constructs no other handle. *)
Theorem C8_no_model_reraises_original
        (g : genai.api) (api_key : str) (st : state g)
        (w1 w2 w3 : genai.world g) (e : exn) (models : list genai.Model) :
  genai.configure g api_key (outside st) = (Returns tt, w1) ->
  genai.GenerativeModel g preferred_model w1 = (Raises e, w2) ->
  genai.list_models g w2 = (Returns models, w3) ->
  filter supports_generateContent models = [] ->
  fst (initialize_ai g api_key st) = Raises e
  /\ new_calls st (initialize_ai g api_key st)
     = [Configure api_key; NewGenerativeModel preferred_model; ListModels].
Proof.
  intros Hc Hb Hl Hf.
  unfold new_calls, initialize_ai, bind, try_except, invoke, raise, Exception.
  rewrite Hc. simpl. rewrite Hb. simpl. rewrite Hl. simpl. rewrite Hf. simpl.
  split; [reflexivity|].
  rewrite <- !app_assoc, skipn_length_app. reflexivity.
Qed.

Lemma C8_no_model_witness :
  fst (initialize_ai without_models (lit "key") (start without_models tt))
  = Raises (OtherException 404)
  /\ new_calls (start without_models tt)
       (initialize_ai without_models (lit "key") (start without_models tt))
     = [Configure (lit "key"); NewGenerativeModel preferred_model; ListModels].
Proof.
  apply (C8_no_model_reraises_original
           without_models (lit "key") (start without_models tt) tt tt tt
           (OtherException 404)
           [ {| genai.name := lit "models/embedding-001";
                genai.supported_generation_methods := Some [lit "embedContent"] |};
             {| genai.name := lit "models/aqa";
                genai.supported_generation_methods := None |} ]).
  - reflexivity.
  - reflexivity.
  - reflexivity.
  - vm_compute. reflexivity.
Defined.

(** With a model that supports content generation in the list, the first
    such model is bound instead. *)
Lemma first_supporting_model_is_bound
      (g : genai.api) (api_key : str) (st : state g)
      (w1 w2 w3 : genai.world g) (e : exn) (models : list genai.Model)
      (m : genai.Model) (rest : list genai.Model) :
  genai.configure g api_key (outside st) = (Returns tt, w1) ->
  genai.GenerativeModel g preferred_model w1 = (Raises e, w2) ->
  genai.list_models g w2 = (Returns models, w3) ->
  filter supports_generateContent models = m :: rest ->
  fst (initialize_ai g api_key st)
  = fst (genai.GenerativeModel g (genai.name m) w3).
Proof.
  intros Hc Hb Hl Hf.
  unfold initialize_ai, bind, try_except, invoke, raise, Exception.
  rewrite Hc. simpl. rewrite Hb. simpl. rewrite Hl. simpl. rewrite Hf. simpl.
  destruct (genai.GenerativeModel g (genai.name m) w3). reflexivity.
Qed.

(* ===================================================================== *)
(** * Further properties of [app.py] *)
(* ===================================================================== *)

Module CleanFacts.
Import json app script StrFacts JsonFacts AppFacts.

(** The trimmed form of a text the decoder accepts is not empty and has
    no backtick at either end. *)
Lemma loads_strip_head T v :
  loads T = Returns v ->
  exists c t, strip T = c :: t /\ (c =? 96)%N = false.
Proof.
  intros H. destruct (loads_strip T v H) as (Hv & _ & _).
  destruct (strip T) as [|c t]; [discriminate|].
  exists c, t. split; [reflexivity|].
  destruct (c =? 96)%N eqn:E; [|reflexivity].
  apply N.eqb_eq in E. subst c. rewrite loads_backtick in Hv. discriminate.
Qed.

Lemma loads_strip_last T v :
  loads T = Returns v ->
  exists x c, strip T = x ++ [c] /\ (c =? 96)%N = false.
Proof.
  intros H. destruct (loads_strip T v H) as (Hv & _ & Hs).
  destruct (strip_split T) as (_ & _ & _ & _ & _ & _ & Ht).
  assert (strip T <> []) as Hne by (intros E; rewrite E in Hv; discriminate).
  destruct (exists_last Hne) as (x & c & Es). rewrite Es in *. clear Hne.
  exists x, c. split; [reflexivity|].
  destruct (c =? 96)%N eqn:E; [|reflexivity].
  apply N.eqb_eq in E. subst c. exfalso.
  unfold loads in Hv.
  destruct (startswith [65279%N] (x ++ [96%N])); [discriminate|].
  remember (S (length (x ++ [96%N]))) as n eqn:Hn. clear Hn.
  assert (inert [96%N]) as Hi by (repeat constructor).
  destruct (skip_ws_cut x [96%N] Hi) as [(c & t & E1 & E2) | (E1 & E2)];
    [rewrite E2 in Hv|].
  - destruct (scan_once n ((c :: t) ++ [96%N])) as [v' r| |] eqn:Hsc;
      try discriminate.
    destruct (scan_once_cut n (c :: t) [96%N] v' r (S (length (c :: t))) Hi Hsc)
      as (r0 & -> & _ & _); [lia|].
    destruct (skip_ws (r0 ++ [96%N])) eqn:R; [|discriminate].
    apply skip_ws_app_nil in R. destruct R as [_ R]. discriminate.
  - destruct (scan_once n (skip_ws (x ++ [96%N]))) as [v' r| |] eqn:Hsc;
      try discriminate.
    rewrite <- (app_nil_l (skip_ws (x ++ [96%N]))) in Hsc.
    destruct (scan_once_cut n [] _ v' r 1 E2 Hsc) as (r0 & _ & Hl & _);
      simpl in *; lia.
Qed.

(** The two markers are removed independently of each other: around a
    text the decoder accepts, either may be absent. *)
Lemma clean_text_marked opener closer ws1 ws2 T ws3 ws4 v :
  optional (lit "```json") opener -> optional (lit "```") closer ->
  blank ws1 -> blank ws2 -> blank ws3 -> blank ws4 ->
  loads T = Returns v ->
  clean_text (marked opener closer ws1 ws2 T ws3 ws4) = strip T.
Proof.
  intros Ho Hc H1 H2 H3 H4 Hv.
  destruct (loads_strip T v Hv) as (_ & Hp & Hs).
  destruct (loads_strip_head T v Hv) as (c0 & t0 & Eh & Hc0).
  destruct (loads_strip_last T v Hv) as (x & c1 & El & Hc1).
  destruct (strip_split T) as (l & w & HT & Hl & Hw & Hth & Htl).
  remember (strip T) as core eqn:Ecore.
  assert (forall b, startswith (lit "```json") (core ++ b) = false) as Hpre.
  { intros b. rewrite Eh. exact (startswith_head_neq 96%N _ c0 (t0 ++ b) Hc0). }
  assert (forall a, endswith (lit "```") (a ++ core) = false) as Hsuf.
  { intros a. unfold endswith. rewrite El, !rev_app_distr.
    exact (startswith_head_neq 96%N _ c1 _ Hc1). }
  assert (core <> []) as Hne by (rewrite Eh; discriminate).
  assert (forall a b, tight_last (a ++ b ++ core)) as Hlast.
  { intros a b. unfold tight_last. rewrite !rev_app_distr, <- app_assoc.
    apply tight_head_app; [|exact Htl].
    intros E. apply (f_equal (@rev N)) in E. rewrite rev_involutive in E.
    exact (Hne E). }
  unfold clean_text, marked.
  destruct Ho as [-> | ->], Hc as [-> | ->].
  - replace (ws1 ++ [] ++ ws2 ++ T ++ ws3 ++ [] ++ ws4)
      with ((ws1 ++ ws2 ++ l) ++ core ++ (w ++ ws3 ++ ws4))
      by (rewrite HT; simpl; rewrite <- !app_assoc; reflexivity).
    rewrite strip_blank_around_tight;
      try assumption; repeat apply blank_app; try assumption.
    rewrite (removeprefix_absent _ _ Hp), (removesuffix_absent _ _ Hs).
    apply strip_tight; assumption.
  - replace (ws1 ++ [] ++ ws2 ++ T ++ ws3 ++ lit "```" ++ ws4)
      with ((ws1 ++ ws2 ++ l) ++ ((core ++ (w ++ ws3)) ++ lit "```") ++ ws4)
      by (rewrite HT; simpl; rewrite <- !app_assoc; reflexivity).
    rewrite strip_blank_around_tight;
      try assumption; repeat apply blank_app; try assumption.
    + rewrite removeprefix_absent by (rewrite <- app_assoc; apply Hpre).
      rewrite removesuffix_app.
      replace (core ++ w ++ ws3) with ([] ++ core ++ (w ++ ws3)) by reflexivity.
      apply strip_blank_around_tight; try assumption;
        repeat apply blank_app; try assumption. constructor.
    + rewrite <- app_assoc. apply tight_head_app; assumption.
    + unfold tight_last. rewrite rev_app_distr. reflexivity.
  - replace (ws1 ++ lit "```json" ++ ws2 ++ T ++ ws3 ++ [] ++ ws4)
      with (ws1 ++ (lit "```json" ++ (ws2 ++ l) ++ core) ++ (w ++ ws3 ++ ws4))
      by (rewrite HT; simpl; rewrite <- !app_assoc; reflexivity).
    rewrite strip_blank_around_tight;
      try assumption; repeat apply blank_app; try assumption.
    + rewrite removeprefix_app.
      rewrite removesuffix_absent by apply Hsuf.
      replace ((ws2 ++ l) ++ core) with ((ws2 ++ l) ++ core ++ [])
        by (rewrite app_nil_r; reflexivity).
      apply strip_blank_around_tight; try assumption;
        repeat apply blank_app; try assumption. constructor.
    + reflexivity.
    + apply Hlast.
  - fold (json_fence ws1 ws2 T ws3 ws4).
    rewrite Ecore.
    exact (clean_text_json_fence ws1 ws2 T ws3 ws4 H1 H2 H3 H4).
Qed.

(** What cleaning returns is a contiguous part of the text it is given. *)
Lemma clean_text_part T : exists a b, T = a ++ clean_text T ++ b.
Proof.
  unfold clean_text.
  destruct (strip_split T) as (l & w & HT & _).
  set (s1 := strip T) in *.
  assert (exists p, s1 = p ++ removeprefix (lit "```json") s1) as (p & Hp).
  { unfold removeprefix. destruct (startswith (lit "```json") s1) eqn:E.
    - apply startswith_split in E. destruct E as (x & ->).
      exists (lit "```json"). rewrite skipn_app, skipn_all, Nat.sub_diag.
      reflexivity.
    - exists []. reflexivity. }
  set (s2 := removeprefix (lit "```json") s1) in *.
  assert (exists q, s2 = removesuffix (lit "```") s2 ++ q) as (q & Hq).
  { unfold removesuffix. destruct (endswith (lit "```") s2) eqn:E.
    - apply endswith_split in E. destruct E as (x & ->).
      exists (lit "```"). rewrite length_app, Nat.add_sub.
      rewrite firstn_app, Nat.sub_diag, firstn_all. simpl.
      rewrite app_nil_r. reflexivity.
    - exists []. rewrite app_nil_r. reflexivity. }
  set (s3 := removesuffix (lit "```") s2) in *.
  destruct (strip_split s3) as (l' & w' & H3 & _).
  exists (l ++ p ++ l'), (w' ++ q ++ w).
  rewrite HT, Hp, Hq, H3 at 1. rewrite <- !app_assoc. reflexivity.
Qed.

End CleanFacts.

Import json app script StrFacts JsonFacts AppFacts ContainsFacts CleanFacts.

(** ** More on response parsing *)

(** X1.  Whatever JSON value the answer decodes to, an object or not, is
    the result: the decoded value is returned with no check of its type. *)
Theorem X1_decoded_answer_returned_whatever_its_type
        (g : genai.api) (model : genai.handle g) (nl_input language : str)
        (st : state g) (T : str) (v : value) :
  answers g model nl_input language st T ->
  loads T = Returns v ->
  fst (generate_siem_data g model nl_input language st) = Returns v.
Proof.
  intros Ha Hl. rewrite (generate_siem_data_answers g _ _ _ _ T Ha).
  rewrite (loads_clean_text T _ Hl). reflexivity.
Qed.

Lemma X1_decoded_answer_witness :
  synthesize array_reply
  = Returns (PyList [PyStr (lit "Check MFA failures");
                     PyStr (lit "Correlate by IP")]).
Proof.
  unfold synthesize.
  apply (X1_decoded_answer_returned_whatever_its_type
           (replying (Returns (Returns array_reply))) preferred_model
           (lit "failed logins from new countries")
           (lit "KQL (Microsoft Sentinel)")
           (start (replying (Returns (Returns array_reply))) tt)
           array_reply).
  - exists (Returns array_reply), tt, tt. split; reflexivity.
  - vm_compute. reflexivity.
Defined.

(** X2.  Around an answer that is valid JSON, the opening marker and the
    closing marker are each optional, with any white space around them:
    the value of the JSON is returned when both, one or none is there. *)
Theorem X2_fence_markers_each_optional
        (g : genai.api) (model : genai.handle g) (nl_input language : str)
        (st : state g) (opener closer ws1 ws2 T ws3 ws4 : str) (v : value) :
  answers g model nl_input language st
          (marked opener closer ws1 ws2 T ws3 ws4) ->
  optional (lit "```json") opener -> optional (lit "```") closer ->
  blank ws1 -> blank ws2 -> blank ws3 -> blank ws4 ->
  loads T = Returns v ->
  fst (generate_siem_data g model nl_input language st) = Returns v.
Proof.
  intros Ha Ho Hc H1 H2 H3 H4 Hv.
  rewrite (generate_siem_data_answers g _ _ _ _ _ Ha).
  rewrite (clean_text_marked opener closer ws1 ws2 T ws3 ws4 v Ho Hc H1 H2 H3 H4 Hv).
  destruct (loads_strip T v Hv) as (Hs & _ & _). rewrite Hs. reflexivity.
Qed.

Lemma X2_fence_markers_witness :
  synthesize (marked (lit "```json") [] [] newline scenario_reply newline [])
  = Returns (PyDict [ (lit "query",
                       PyStr (lit "SigninLogs | where ResultType != 0 | take 100"));
                      (lit "recommendations",
                       PyList [PyStr (lit "Check MFA failures");
                               PyStr (lit "Correlate by IP")]) ]).
Proof.
  unfold synthesize.
  apply (X2_fence_markers_each_optional
           (replying (Returns (Returns
              (marked (lit "```json") [] [] newline scenario_reply newline []))))
           preferred_model
           (lit "failed logins from new countries")
           (lit "KQL (Microsoft Sentinel)")
           (start (replying (Returns (Returns
              (marked (lit "```json") [] [] newline scenario_reply newline [])))) tt)
           (lit "```json") [] [] newline scenario_reply newline []).
  - exists (Returns (marked (lit "```json") [] [] newline scenario_reply newline [])),
      tt, tt. split; reflexivity.
  - right. reflexivity.
  - left. reflexivity.
  - constructor.
  - repeat constructor.
  - repeat constructor.
  - constructor.
  - vm_compute. reflexivity.
Defined.

(** X3.  An answer that is empty or made of white space only gives the
    fallback record. *)
Theorem X3_blank_answer_gives_fallback
        (g : genai.api) (model : genai.handle g) (nl_input language : str)
        (st : state g) (T : str) :
  answers g model nl_input language st T ->
  blank T ->
  fst (generate_siem_data g model nl_input language st) = Returns fallback.
Proof.
  intros Ha Hb. rewrite (generate_siem_data_answers g _ _ _ _ T Ha).
  rewrite (blank_answer_undecodable T Hb). reflexivity.
Qed.

Lemma X3_blank_answer_witness :
  synthesize (lit "  " ++ newline) = Returns fallback.
Proof.
  unfold synthesize.
  apply (X3_blank_answer_gives_fallback
           (replying (Returns (Returns (lit "  " ++ newline)))) preferred_model
           (lit "failed logins from new countries")
           (lit "KQL (Microsoft Sentinel)")
           (start (replying (Returns (Returns (lit "  " ++ newline)))) tt)
           (lit "  " ++ newline)).
  - exists (Returns (lit "  " ++ newline)), tt, tt. split; reflexivity.
  - repeat constructor.
Defined.

(** X4.  Once [generate_content] has returned a response,
    [generate_siem_data] never raises a [json.JSONDecodeError]: an
    exception that it raises is not one, and it was raised either by
    reading [response.text] or by [json.loads] on the cleaned text. *)
Theorem X4_no_decode_error_escapes
        (g : genai.api) (model : genai.handle g) (nl_input language : str)
        (st : state g) (resp : genai.response g) (w1 : genai.world g) :
  genai.generate_content g model (prompt nl_input language) (outside st)
    = (Returns resp, w1) ->
  forall e,
    fst (generate_siem_data g model nl_input language st) = Raises e ->
    is_JSONDecodeError e = false
    /\ ((exists w2, genai.text g resp w1 = (Raises e, w2))
        \/ (exists T w2,
               genai.text g resp w1 = (Returns T, w2)
               /\ loads (clean_text T) = Raises e)).
Proof.
  intros Hg e.
  unfold generate_siem_data, bind, try_except, invoke, of_outcome, ret.
  rewrite Hg. simpl.
  destruct (genai.text g resp w1) as [[T|e'] w2]; simpl.
  - destruct (loads (clean_text T)) as [v|e''] eqn:E; simpl; [discriminate|].
    destruct (is_JSONDecodeError e'') eqn:E'; simpl; [discriminate|].
    intros H. inversion H; subst. split; [exact E'|].
    right. exists T, w2. split; [reflexivity | exact E].
  - destruct (is_JSONDecodeError e') eqn:E; simpl; [discriminate|].
    intros H. inversion H; subst. split; [exact E|].
    left. exists w2. reflexivity.
Qed.

Lemma X4_no_decode_error_witness :
  is_JSONDecodeError (OtherException 400) = false
  /\ ((exists w2,
         genai.text (replying (Returns (Raises (OtherException 400))))
           (Raises (OtherException 400)) tt = (Raises (OtherException 400), w2))
      \/ (exists T w2,
             genai.text (replying (Returns (Raises (OtherException 400))))
               (Raises (OtherException 400)) tt = (Returns T, w2)
             /\ loads (clean_text T) = Raises (OtherException 400))).
Proof.
  apply (X4_no_decode_error_escapes
           (replying (Returns (Raises (OtherException 400)))) preferred_model
           (lit "failed logins from new countries") (lit "Sigma")
           (start (replying (Returns (Raises (OtherException 400)))) tt)
           (Raises (OtherException 400)) tt).
  - reflexivity.
  - reflexivity.
Defined.

(** X5.  A run calls the model once and reads the text of the response at
    most once, whatever the answer: a response that fails to decode is not
    asked for again. *)
Theorem X5_single_attempt
        (g : genai.api) (model : genai.handle g) (nl_input language : str)
        (st : state g) :
  new_calls st (generate_siem_data g model nl_input language st)
  = match fst (genai.generate_content g model (prompt nl_input language)
                 (outside st)) with
    | Returns _ => [GenerateContent (prompt nl_input language); ReadText]
    | Raises _ => [GenerateContent (prompt nl_input language)]
    end.
Proof.
  unfold new_calls, generate_siem_data, bind, try_except, invoke, of_outcome, ret.
  destruct (genai.generate_content g model (prompt nl_input language) (outside st))
    as [[resp|e] w1]; simpl.
  - destruct (genai.text g resp w1) as [[T|e] w2]; simpl.
    + destruct (loads (clean_text T)) as [v|e]; simpl;
        [|destruct (is_JSONDecodeError e); simpl];
        rewrite <- app_assoc, skipn_length_app; reflexivity.
    + destruct (is_JSONDecodeError e); simpl;
        rewrite <- app_assoc, skipn_length_app; reflexivity.
  - rewrite skipn_length_app. reflexivity.
Qed.

(** X22.  Cleaning only removes text from the two ends of the answer:
    what is decoded is a contiguous part of the answer, with no white
    space at its start or at its end. *)
Theorem X22_cleaned_text_is_part_of_answer (T : str) :
  (exists a b, T = a ++ clean_text T ++ b)
  /\ tight_head (clean_text T) /\ tight_last (clean_text T).
Proof.
  split; [apply clean_text_part|]. unfold clean_text.
  destruct (strip_split
              (removesuffix (lit "```")
                 (removeprefix (lit "```json") (strip T))))
    as (_ & _ & _ & _ & _ & Hh & Hl).
  split; assumption.
Qed.

(** ** More on prompt construction *)

(** For one language, the prompt determines the request. *)
Lemma prompt_injective_request nl1 nl2 language :
  prompt nl1 language = prompt nl2 language -> nl1 = nl2.
Proof.
  unfold prompt. intros H.
  repeat (apply app_inv_head in H). exact H.
Qed.

(** X6.  Over the four languages of the selector, the prompt determines
    the language and the request: two prompts are equal only for the same
    language and the same request. *)
Theorem X6_prompt_determines_language_and_request
        (nl1 nl2 language1 language2 : str) :
  In language1 siem_languages -> In language2 siem_languages ->
  prompt nl1 language1 = prompt nl2 language2 ->
  language1 = language2 /\ nl1 = nl2.
Proof.
  intros H1 H2 H.
  assert (language1 = language2) as E.
  { unfold prompt, system_prompt in H. cbn [join_lines] in H.
    rewrite <- !app_assoc in H.
    repeat (apply app_inv_head in H).
    simpl in H1, H2.
    destruct H1 as [<- | [<- | [<- | [<- | []]]]];
      destruct H2 as [<- | [<- | [<- | [<- | []]]]];
      try reflexivity; exfalso; cbn in H; congruence. }
  subst language2. split; [reflexivity|].
  exact (prompt_injective_request _ _ _ H).
Qed.

Lemma X6_prompt_determines_witness :
  lit "Sigma" = lit "Sigma" /\ lit "failed logins" = lit "failed logins".
Proof.
  apply (X6_prompt_determines_language_and_request
           (lit "failed logins") (lit "failed logins") (lit "Sigma") (lit "Sigma")).
  - simpl. auto.
  - simpl. auto.
  - reflexivity.
Defined.

(** ** More on model selection *)

(** X7.  When the preferred model cannot be bound, the model bound
    instead is the first listed one that declares [generateContent]; the
    models listed before it that do not declare it are passed over, and
    the outcome of binding it is the outcome of [initialize_ai]. *)
Theorem X7_first_supporting_model_bound
        (g : genai.api) (api_key : str) (st : state g)
        (w1 w2 w3 : genai.world g) (e : exn)
        (skipped rest : list genai.Model) (m : genai.Model) :
  genai.configure g api_key (outside st) = (Returns tt, w1) ->
  genai.GenerativeModel g preferred_model w1 = (Raises e, w2) ->
  genai.list_models g w2 = (Returns (skipped ++ m :: rest), w3) ->
  Forall (fun m' => supports_generateContent m' = false) skipped ->
  supports_generateContent m = true ->
  fst (initialize_ai g api_key st)
  = fst (genai.GenerativeModel g (genai.name m) w3)
  /\ new_calls st (initialize_ai g api_key st)
     = [Configure api_key; NewGenerativeModel preferred_model; ListModels;
        NewGenerativeModel (genai.name m)].
Proof.
  intros Hc Hb Hl Hsk Hm.
  assert (filter supports_generateContent (skipped ++ m :: rest)
          = m :: filter supports_generateContent rest) as Hf.
  { rewrite filter_app. simpl. rewrite Hm.
    replace (filter supports_generateContent skipped) with (@nil genai.Model);
      [reflexivity|].
    symmetry. clear Hl. induction Hsk as [|m' sk Hm' _ IH]; simpl; [reflexivity|].
    rewrite Hm'. exact IH. }
  unfold new_calls, initialize_ai, bind, try_except, invoke, raise, Exception.
  rewrite Hc. simpl. rewrite Hb. simpl. rewrite Hl. simpl. rewrite Hf. simpl.
  destruct (genai.GenerativeModel g (genai.name m) w3) as [r w4]. simpl.
  split; [reflexivity|].
  rewrite <- !app_assoc, skipn_length_app. reflexivity.
Qed.

Lemma X7_first_supporting_model_witness :
  fst (initialize_ai (with_fallback_models (Returns (Returns scenario_reply)))
         (lit "key")
         (start (with_fallback_models (Returns (Returns scenario_reply))) tt))
  = fst (genai.GenerativeModel
           (with_fallback_models (Returns (Returns scenario_reply)))
           (lit "models/gemini-pro") tt)
  /\ new_calls (start (with_fallback_models (Returns (Returns scenario_reply))) tt)
       (initialize_ai (with_fallback_models (Returns (Returns scenario_reply)))
          (lit "key")
          (start (with_fallback_models (Returns (Returns scenario_reply))) tt))
     = [Configure (lit "key"); NewGenerativeModel preferred_model; ListModels;
        NewGenerativeModel (lit "models/gemini-pro")].
Proof.
  apply (X7_first_supporting_model_bound
           (with_fallback_models (Returns (Returns scenario_reply))) (lit "key")
           (start (with_fallback_models (Returns (Returns scenario_reply))) tt)
           tt tt tt (OtherException 404)
           [ {| genai.name := lit "models/embedding-001";
                genai.supported_generation_methods := Some [lit "embedContent"] |} ]
           [ {| genai.name := lit "models/gemini-ultra";
                genai.supported_generation_methods := Some [lit "generateContent"] |} ]
           {| genai.name := lit "models/gemini-pro";
              genai.supported_generation_methods :=
                Some [lit "generateContent"; lit "countTokens"] |}).
  - reflexivity.
  - reflexivity.
  - reflexivity.
  - repeat constructor.
  - vm_compute. reflexivity.
Defined.

(** X8.  When the preferred model cannot be bound and listing the models
    raises too, the exception of the listing is the one [initialize_ai]
    raises, and no other handle is constructed. *)
Theorem X8_listing_failure_propagates
        (g : genai.api) (api_key : str) (st : state g)
        (w1 w2 w3 : genai.world g) (e e' : exn) :
  genai.configure g api_key (outside st) = (Returns tt, w1) ->
  genai.GenerativeModel g preferred_model w1 = (Raises e, w2) ->
  genai.list_models g w2 = (Raises e', w3) ->
  fst (initialize_ai g api_key st) = Raises e'
  /\ new_calls st (initialize_ai g api_key st)
     = [Configure api_key; NewGenerativeModel preferred_model; ListModels].
Proof.
  intros Hc Hb Hl.
  unfold new_calls, initialize_ai, bind, try_except, invoke, raise, Exception.
  rewrite Hc. simpl. rewrite Hb. simpl. rewrite Hl. simpl.
  split; [reflexivity|].
  rewrite <- !app_assoc, skipn_length_app. reflexivity.
Qed.

Lemma X8_listing_failure_witness :
  fst (initialize_ai listing_fails (lit "key") (start listing_fails tt))
  = Raises (OtherException 403)
  /\ new_calls (start listing_fails tt)
       (initialize_ai listing_fails (lit "key") (start listing_fails tt))
     = [Configure (lit "key"); NewGenerativeModel preferred_model; ListModels].
Proof.
  apply (X8_listing_failure_propagates
           listing_fails (lit "key") (start listing_fails tt)
           tt tt tt (OtherException 404) (OtherException 403));
    reflexivity.
Defined.

(** X9.  Every run of [initialize_ai] begins by configuring the client
    with the key, makes only selection calls (it never asks the model to
    generate), and makes at most four calls, at most two of them handle
    constructions: there is one fallback attempt and no retry. *)
Theorem X9_selection_call_budget
        (g : genai.api) (api_key : str) (st : state g) :
  exists rest,
    new_calls st (initialize_ai g api_key st) = Configure api_key :: rest
    /\ forallb selection_call rest = true
    /\ length rest <= 3
    /\ length (models_bound rest) <= 2.
Proof.
  unfold new_calls, initialize_ai, bind, try_except, invoke, raise, Exception.
  destruct (genai.configure g api_key (outside st)) as [[[]|e0] w1]; simpl.
  2:{ exists []. rewrite skipn_length_app. simpl. repeat split; lia. }
  destruct (genai.GenerativeModel g preferred_model w1) as [[h|e] w2]; simpl.
  { exists [NewGenerativeModel preferred_model].
    rewrite <- !app_assoc, skipn_length_app. simpl. repeat split; lia. }
  destruct (genai.list_models g w2) as [[ms|e'] w3]; simpl.
  2:{ exists [NewGenerativeModel preferred_model; ListModels].
      rewrite <- !app_assoc, skipn_length_app. simpl. repeat split; lia. }
  destruct (map genai.name (filter supports_generateContent ms))
    as [|first others]; simpl.
  { exists [NewGenerativeModel preferred_model; ListModels].
    rewrite <- !app_assoc, skipn_length_app. simpl. repeat split; lia. }
  destruct (genai.GenerativeModel g first w3) as [r w4]. simpl.
  exists [NewGenerativeModel preferred_model; ListModels; NewGenerativeModel first].
  rewrite <- !app_assoc, skipn_length_app. simpl. repeat split; lia.
Qed.

(** X10.  A handle is only ever constructed for the preferred model or
    for a model that the backend has listed and that declares
    [generateContent]: a model whose [supported_generation_methods] lacks
    it, or is missing, is never bound. *)
Theorem X10_only_supporting_models_bound
        (g : genai.api) (api_key : str) (st : state g) (model_name : str) :
  In model_name (models_bound (new_calls st (initialize_ai g api_key st))) ->
  model_name = preferred_model
  \/ exists w models w' m,
       genai.list_models g w = (Returns models, w')
       /\ In m models
       /\ supports_generateContent m = true
       /\ genai.name m = model_name.
Proof.
  unfold new_calls, initialize_ai, bind, try_except, invoke, raise, Exception.
  destruct (genai.configure g api_key (outside st)) as [[[]|e0] w1]; simpl.
  2:{ rewrite skipn_length_app. simpl. intros []. }
  destruct (genai.GenerativeModel g preferred_model w1) as [[h|e] w2]; simpl.
  { rewrite <- !app_assoc, skipn_length_app. simpl. intros [H | []]. auto. }
  destruct (genai.list_models g w2) as [[ms|e'] w3] eqn:Hl; simpl.
  2:{ rewrite <- !app_assoc, skipn_length_app. simpl. intros [H | []]. auto. }
  destruct (map genai.name (filter supports_generateContent ms))
    as [|first others] eqn:Hf; simpl.
  { rewrite <- !app_assoc, skipn_length_app. simpl. intros [H | []]. auto. }
  destruct (genai.GenerativeModel g first w3) as [r w4]. simpl.
  rewrite <- !app_assoc, skipn_length_app. simpl.
  intros [H | [H | []]]; [auto|]. right. subst model_name.
  assert (In first (map genai.name (filter supports_generateContent ms))) as Hin
      by (rewrite Hf; left; reflexivity).
  apply in_map_iff in Hin. destruct Hin as (m & Hn & Hm).
  apply filter_In in Hm. destruct Hm as [Hm Hs].
  exists w2, ms, w3, m. auto.
Qed.

Lemma X10_only_supporting_models_witness :
  lit "models/gemini-pro" = preferred_model
  \/ exists w models w' m,
       genai.list_models (with_fallback_models (Returns (Returns scenario_reply))) w
         = (Returns models, w')
       /\ In m models
       /\ supports_generateContent m = true
       /\ genai.name m = lit "models/gemini-pro".
Proof.
  apply (X10_only_supporting_models_bound
           (with_fallback_models (Returns (Returns scenario_reply))) (lit "key")
           (start (with_fallback_models (Returns (Returns scenario_reply))) tt)
           (lit "models/gemini-pro")).
  vm_compute. auto.
Defined.

(** X11.  When configuring the client raises, [initialize_ai] raises the
    same exception and makes no further call. *)
Theorem X11_configure_failure_propagates
        (g : genai.api) (api_key : str) (st : state g)
        (w1 : genai.world g) (e : exn) :
  genai.configure g api_key (outside st) = (Raises e, w1) ->
  fst (initialize_ai g api_key st) = Raises e
  /\ new_calls st (initialize_ai g api_key st) = [Configure api_key].
Proof.
  intros Hc.
  unfold new_calls, initialize_ai, bind, try_except, invoke, raise, Exception.
  rewrite Hc. simpl. split; [reflexivity|].
  rewrite skipn_length_app. reflexivity.
Qed.

Lemma X11_configure_failure_witness :
  fst (initialize_ai configure_fails (lit "key") (start configure_fails tt))
  = Raises (OtherException 401)
  /\ new_calls (start configure_fails tt)
       (initialize_ai configure_fails (lit "key") (start configure_fails tt))
     = [Configure (lit "key")].
Proof.
  apply (X11_configure_failure_propagates
           configure_fails (lit "key") (start configure_fails tt)
           tt (OtherException 401)).
  reflexivity.
Defined.

(** ** The button handler *)

Module ScriptFacts.
Import json app script AppFacts.

Lemma for_each_show (g : genai.api) (w : value -> widget) (items : list value)
      (ps : page_state g) :
  for_each g items
    (fun rec ps0 =>
       (Done tt, {| backend := backend ps0; screen := screen ps0 ++ [w rec] |}))
    ps
  = (Done tt, {| backend := backend ps; screen := screen ps ++ map w items |}).
Proof.
  revert ps. induction items as [|x items IH]; intros [b s]; simpl.
  - rewrite app_nil_r. reflexivity.
  - unfold then_. rewrite IH. simpl.
    rewrite <- app_assoc. reflexivity.
Qed.

(** The handler up to the two function calls: what is on the page when
    the result arrives, or when a call raises. *)
Lemma on_generate_btn_calls (g : genai.api) bool_of_float str_of_value
      k key c request language (ps : page_state g) :
  on_generate_btn g bool_of_float str_of_value true (k :: key) (c :: request)
    language ps
  = match initialize_ai g (k :: key) (backend ps) with
    | (Raises e, st1) =>
        (Crashed (BackendError e),
         {| backend := st1; screen := screen ps ++ [spinner] |})
    | (Returns model, st1) =>
        match generate_siem_data g model (c :: request) language st1 with
        | (Raises e, st2) =>
            (Crashed (BackendError e),
             {| backend := st2; screen := screen ps ++ [spinner] |})
        | (Returns result, st2) =>
            match get result (lit "query") (PyStr (lit "Error generating query.")) with
            | Crashed e =>
                (Crashed e,
                 {| backend := st2;
                    screen := screen ps ++ [spinner; query_header language] |})
            | Done query =>
                match get result (lit "recommendations") (PyList []) with
                | Crashed e =>
                    (Crashed e,
                     {| backend := st2;
                        screen := screen ps
                                  ++ [spinner; query_header language;
                                      st_code query (lit "sql");
                                      recommendations_header] |})
                | Done recs =>
                    if truthy bool_of_float recs then
                      match iterate recs with
                      | Crashed e =>
                          (Crashed e,
                           {| backend := st2;
                              screen := screen ps
                                        ++ [spinner; query_header language;
                                            st_code query (lit "sql");
                                            recommendations_header] |})
                      | Done items =>
                          (Done tt,
                           {| backend := st2;
                              screen := screen ps
                                        ++ [spinner; query_header language;
                                            st_code query (lit "sql");
                                            recommendations_header]
                                        ++ map (fun rec =>
                                                  st_markdown
                                                    (recommendation_box str_of_value rec)
                                                    true) items |})
                      end
                    else
                      (Done tt,
                       {| backend := st2;
                          screen := screen ps
                                    ++ [spinner; query_header language;
                                        st_code query (lit "sql");
                                        recommendations_header;
                                        no_recommendations] |})
                end
            end
        end
    end.
Proof.
  unfold on_generate_btn, then_, show, call_function, of_result.
  cbn [backend screen].
  destruct (initialize_ai g (k :: key) (backend ps)) as [[model|e] st1];
    [|reflexivity].
  cbn [backend screen].
  destruct (generate_siem_data g model (c :: request) language st1)
    as [[result|e] st2]; [|reflexivity].
  cbn [backend screen].
  destruct (get result (lit "query") (PyStr (lit "Error generating query.")))
    as [query|e]; [|rewrite <- app_assoc; reflexivity].
  cbn [backend screen].
  destruct (get result (lit "recommendations") (PyList [])) as [recs|e];
    [|rewrite <- !app_assoc; reflexivity].
  destruct (truthy bool_of_float recs).
  - destruct (iterate recs) as [items|e].
    + rewrite for_each_show. cbn [backend screen].
      rewrite <- !app_assoc. reflexivity.
    + rewrite <- !app_assoc. reflexivity.
  - cbn [backend screen]. rewrite <- !app_assoc. reflexivity.
Qed.

Lemma prompts_sent_app a b :
  prompts_sent (a ++ b) = prompts_sent a ++ prompts_sent b.
Proof.
  induction a as [|c a IH]; simpl; [reflexivity|].
  destruct c; simpl; rewrite IH; reflexivity.
Qed.

(** Model selection only adds calls, none of them a generation call. *)
Lemma initialize_ai_extends (g : genai.api) api_key (st : state g) :
  exists added,
    calls (snd (initialize_ai g api_key st)) = calls st ++ added
    /\ prompts_sent added = [].
Proof.
  unfold initialize_ai, bind, try_except, invoke, raise, Exception.
  destruct (genai.configure g api_key (outside st)) as [[[]|e0] w1]; simpl.
  2:{ exists [Configure api_key]. split; reflexivity. }
  destruct (genai.GenerativeModel g preferred_model w1) as [[h|e] w2]; simpl.
  { eexists. rewrite <- !app_assoc. split; reflexivity. }
  destruct (genai.list_models g w2) as [[ms|e'] w3]; simpl.
  2:{ eexists. rewrite <- !app_assoc. split; reflexivity. }
  destruct (map genai.name (filter supports_generateContent ms))
    as [|first others]; simpl.
  { eexists. rewrite <- !app_assoc. split; reflexivity. }
  destruct (genai.GenerativeModel g first w3) as [r w4]. simpl.
  eexists. rewrite <- !app_assoc. split; reflexivity.
Qed.

(** Query synthesis only adds calls, one of them the generation call. *)
Lemma generate_siem_data_extends (g : genai.api) model nl_input language
      (st : state g) :
  exists added,
    calls (snd (generate_siem_data g model nl_input language st))
    = calls st ++ added
    /\ prompts_sent added = [prompt nl_input language].
Proof.
  unfold generate_siem_data, bind, try_except, invoke, of_outcome, ret.
  destruct (genai.generate_content g model (prompt nl_input language) (outside st))
    as [[resp|e] w1]; simpl.
  - destruct (genai.text g resp w1) as [[T|e] w2]; simpl.
    + destruct (loads (clean_text T)) as [v|e]; simpl;
        [|destruct (is_JSONDecodeError e); simpl];
        eexists; rewrite <- !app_assoc; split; reflexivity.
    + destruct (is_JSONDecodeError e); simpl;
        eexists; rewrite <- !app_assoc; split; reflexivity.
  - eexists. split; reflexivity.
Qed.

End ScriptFacts.

Import ScriptFacts.

(** X12.  Unless the button was pressed with a key and a request that are
    both non-empty, the handler leaves the backend untouched: it shows
    nothing (button not pressed), the error about the key (no key, also
    when the request is empty too), or the warning about the request. *)
Theorem X12_no_backend_call_without_key_and_request
        (g : genai.api) (bool_of_float : str -> bool)
        (str_of_value : value -> str) (generate_btn : bool)
        (api_key nl_input siem_language : str) (ps : page_state g) :
  generate_btn = false \/ api_key = [] \/ nl_input = [] ->
  fst (on_generate_btn g bool_of_float str_of_value generate_btn api_key
         nl_input siem_language ps) = Done tt
  /\ backend (snd (on_generate_btn g bool_of_float str_of_value generate_btn
                     api_key nl_input siem_language ps)) = backend ps
  /\ new_widgets ps
       (on_generate_btn g bool_of_float str_of_value generate_btn api_key
          nl_input siem_language ps)
     = if generate_btn then
         match api_key with
         | [] => [st_error (lit "Please provide a Gemini API Key in the sidebar.")]
         | _ :: _ => [st_warning (lit "Please describe a threat to generate a query.")]
         end
       else [].
Proof.
  intros H. unfold new_widgets, on_generate_btn.
  destruct generate_btn.
  - destruct api_key as [|k key].
    + unfold show. simpl. rewrite skipn_length_app. auto.
    + destruct nl_input as [|c request].
      * unfold show. simpl. rewrite skipn_length_app. auto.
      * exfalso. destruct H as [H | [H | H]]; discriminate.
  - unfold done. simpl. rewrite skipn_all. auto.
Qed.

Lemma X12_no_backend_call_witness :
  fst (on_generate_btn (replying (Returns (Returns scenario_reply)))
         no_float unused_str true [] [] (lit "Sigma")
         (fresh (replying (Returns (Returns scenario_reply))) tt)) = Done tt
  /\ backend (snd (on_generate_btn (replying (Returns (Returns scenario_reply)))
                     no_float unused_str true [] [] (lit "Sigma")
                     (fresh (replying (Returns (Returns scenario_reply))) tt)))
     = backend (fresh (replying (Returns (Returns scenario_reply))) tt)
  /\ new_widgets (fresh (replying (Returns (Returns scenario_reply))) tt)
       (on_generate_btn (replying (Returns (Returns scenario_reply)))
          no_float unused_str true [] [] (lit "Sigma")
          (fresh (replying (Returns (Returns scenario_reply))) tt))
     = [st_error (lit "Please provide a Gemini API Key in the sidebar.")].
Proof.
  apply (X12_no_backend_call_without_key_and_request
           (replying (Returns (Returns scenario_reply))) no_float unused_str
           true [] [] (lit "Sigma")
           (fresh (replying (Returns (Returns scenario_reply))) tt)).
  right. left. reflexivity.
Defined.

(** X13.  For a result that is a record with a query and a non-empty list
    of recommendations, the handler shows the query as code and then one
    box for every recommendation, in the order of the list, however many
    there are: the page does not stop at four. *)
Theorem X13_every_recommendation_rendered
        (g : genai.api) (bool_of_float : str -> bool)
        (str_of_value : value -> str)
        (api_key nl_input siem_language : str) (ps : page_state g)
        (model : genai.handle g) (st1 st2 : state g)
        (d : list (str * value)) (query rec : value) (recs : list value) :
  api_key <> [] -> nl_input <> [] ->
  initialize_ai g api_key (backend ps) = (Returns model, st1) ->
  generate_siem_data g model nl_input siem_language st1
    = (Returns (PyDict d), st2) ->
  dict_get (lit "query") d = Some query ->
  dict_get (lit "recommendations") d = Some (PyList (rec :: recs)) ->
  fst (on_generate_btn g bool_of_float str_of_value true api_key nl_input
         siem_language ps) = Done tt
  /\ new_widgets ps
       (on_generate_btn g bool_of_float str_of_value true api_key nl_input
          siem_language ps)
     = [spinner; query_header siem_language; st_code query (lit "sql");
        recommendations_header]
       ++ map (fun r => st_markdown (recommendation_box str_of_value r) true)
              (rec :: recs).
Proof.
  intros Hk Hn Hi Hg Hq Hr.
  destruct api_key as [|k key]; [congruence|].
  destruct nl_input as [|c request]; [congruence|].
  unfold new_widgets. rewrite on_generate_btn_calls, Hi, Hg.
  unfold get. rewrite Hq, Hr. simpl.
  rewrite skipn_length_app. auto.
Qed.

Lemma X13_every_recommendation_witness :
  fst (on_generate_btn (replying (Returns (Returns six_reply)))
         no_float unused_str true (lit "key") (lit "failed logins")
         (lit "Sigma") (fresh (replying (Returns (Returns six_reply))) tt))
  = Done tt
  /\ new_widgets (fresh (replying (Returns (Returns six_reply))) tt)
       (on_generate_btn (replying (Returns (Returns six_reply)))
          no_float unused_str true (lit "key") (lit "failed logins")
          (lit "Sigma") (fresh (replying (Returns (Returns six_reply))) tt))
     = [spinner; query_header (lit "Sigma"); st_code (PyStr (lit "q")) (lit "sql");
        recommendations_header]
       ++ map (fun r => st_markdown (recommendation_box unused_str r) true)
              [PyStr (lit "a"); PyStr (lit "b"); PyStr (lit "c");
               PyStr (lit "d"); PyStr (lit "e"); PyStr (lit "f")].
Proof.
  eapply (X13_every_recommendation_rendered
            (replying (Returns (Returns six_reply))) no_float unused_str
            (lit "key") (lit "failed logins") (lit "Sigma")
            (fresh (replying (Returns (Returns six_reply))) tt)).
  - discriminate.
  - discriminate.
  - vm_compute. reflexivity.
  - vm_compute. reflexivity.
  - vm_compute. reflexivity.
  - vm_compute. reflexivity.
Defined.

(** X14.  When the model's answer cannot be decoded, the page does not
    fail: it shows the placeholder query of the fallback record as code
    and the message that no recommendations were generated. *)
Theorem X14_undecodable_answer_page
        (g : genai.api) (bool_of_float : str -> bool)
        (str_of_value : value -> str)
        (api_key nl_input siem_language : str) (ps : page_state g)
        (model : genai.handle g) (st1 : state g) (T : str) :
  api_key <> [] -> nl_input <> [] ->
  initialize_ai g api_key (backend ps) = (Returns model, st1) ->
  answers g model nl_input siem_language st1 T ->
  loads (clean_text T) = Raises JSONDecodeError ->
  fst (on_generate_btn g bool_of_float str_of_value true api_key nl_input
         siem_language ps) = Done tt
  /\ new_widgets ps
       (on_generate_btn g bool_of_float str_of_value true api_key nl_input
          siem_language ps)
     = [spinner; query_header siem_language;
        st_code (PyStr (lit "-- Error parsing AI response. Please try again."))
                (lit "sql");
        recommendations_header; no_recommendations].
Proof.
  intros Hk Hn Hi Ha Hl.
  destruct api_key as [|k key]; [congruence|].
  destruct nl_input as [|c request]; [congruence|].
  pose proof (generate_siem_data_answers g _ _ _ _ T Ha) as Hg.
  rewrite Hl in Hg. simpl in Hg.
  unfold new_widgets. rewrite on_generate_btn_calls, Hi.
  destruct (generate_siem_data g model (c :: request) siem_language st1)
    as [o st2]. simpl in Hg. subst o.
  simpl. rewrite skipn_length_app. auto.
Qed.

Lemma X14_undecodable_answer_witness :
  fst (on_generate_btn (replying (Returns (Returns refusal_reply)))
         no_float unused_str true (lit "key") (lit "failed logins")
         (lit "Sigma") (fresh (replying (Returns (Returns refusal_reply))) tt))
  = Done tt
  /\ new_widgets (fresh (replying (Returns (Returns refusal_reply))) tt)
       (on_generate_btn (replying (Returns (Returns refusal_reply)))
          no_float unused_str true (lit "key") (lit "failed logins")
          (lit "Sigma") (fresh (replying (Returns (Returns refusal_reply))) tt))
     = [spinner; query_header (lit "Sigma");
        st_code (PyStr (lit "-- Error parsing AI response. Please try again."))
                (lit "sql");
        recommendations_header; no_recommendations].
Proof.
  eapply (X14_undecodable_answer_page
            (replying (Returns (Returns refusal_reply))) no_float unused_str
            (lit "key") (lit "failed logins") (lit "Sigma")
            (fresh (replying (Returns (Returns refusal_reply))) tt)
            _ _ refusal_reply).
  - discriminate.
  - discriminate.
  - vm_compute. reflexivity.
  - exists (Returns refusal_reply), tt, tt. split; reflexivity.
  - vm_compute. reflexivity.
Defined.

(** X15.  For a record that has neither a query nor recommendations, the
    handler shows the default text "Error generating query." as the query
    and the message that no recommendations were generated. *)
Theorem X15_missing_keys_defaults
        (g : genai.api) (bool_of_float : str -> bool)
        (str_of_value : value -> str)
        (api_key nl_input siem_language : str) (ps : page_state g)
        (model : genai.handle g) (st1 st2 : state g)
        (d : list (str * value)) :
  api_key <> [] -> nl_input <> [] ->
  initialize_ai g api_key (backend ps) = (Returns model, st1) ->
  generate_siem_data g model nl_input siem_language st1
    = (Returns (PyDict d), st2) ->
  dict_get (lit "query") d = None ->
  dict_get (lit "recommendations") d = None ->
  fst (on_generate_btn g bool_of_float str_of_value true api_key nl_input
         siem_language ps) = Done tt
  /\ new_widgets ps
       (on_generate_btn g bool_of_float str_of_value true api_key nl_input
          siem_language ps)
     = [spinner; query_header siem_language;
        st_code (PyStr (lit "Error generating query.")) (lit "sql");
        recommendations_header; no_recommendations].
Proof.
  intros Hk Hn Hi Hg Hq Hr.
  destruct api_key as [|k key]; [congruence|].
  destruct nl_input as [|c request]; [congruence|].
  unfold new_widgets. rewrite on_generate_btn_calls, Hi, Hg.
  unfold get. rewrite Hq, Hr. simpl.
  rewrite skipn_length_app. auto.
Qed.

Lemma X15_missing_keys_witness :
  fst (on_generate_btn (replying (Returns (Returns (lit "{}"))))
         no_float unused_str true (lit "key") (lit "failed logins")
         (lit "Sigma") (fresh (replying (Returns (Returns (lit "{}")))) tt))
  = Done tt
  /\ new_widgets (fresh (replying (Returns (Returns (lit "{}")))) tt)
       (on_generate_btn (replying (Returns (Returns (lit "{}"))))
          no_float unused_str true (lit "key") (lit "failed logins")
          (lit "Sigma") (fresh (replying (Returns (Returns (lit "{}")))) tt))
     = [spinner; query_header (lit "Sigma");
        st_code (PyStr (lit "Error generating query.")) (lit "sql");
        recommendations_header; no_recommendations].
Proof.
  eapply (X15_missing_keys_defaults
            (replying (Returns (Returns (lit "{}")))) no_float unused_str
            (lit "key") (lit "failed logins") (lit "Sigma")
            (fresh (replying (Returns (Returns (lit "{}")))) tt)).
  - discriminate.
  - discriminate.
  - vm_compute. reflexivity.
  - vm_compute. reflexivity.
  - reflexivity.
  - reflexivity.
Defined.

(** X16.  When the decoded answer is not a JSON object (an array, a
    string, a number, ...), the handler raises [AttributeError] at
    [result.get], after the header of the query and before any query or
    recommendation is shown. *)
Theorem X16_non_object_result_crashes
        (g : genai.api) (bool_of_float : str -> bool)
        (str_of_value : value -> str)
        (api_key nl_input siem_language : str) (ps : page_state g)
        (model : genai.handle g) (st1 st2 : state g) (result : value) :
  api_key <> [] -> nl_input <> [] ->
  initialize_ai g api_key (backend ps) = (Returns model, st1) ->
  generate_siem_data g model nl_input siem_language st1
    = (Returns result, st2) ->
  (forall d, result <> PyDict d) ->
  fst (on_generate_btn g bool_of_float str_of_value true api_key nl_input
         siem_language ps) = Crashed AttributeError
  /\ new_widgets ps
       (on_generate_btn g bool_of_float str_of_value true api_key nl_input
          siem_language ps)
     = [spinner; query_header siem_language].
Proof.
  intros Hk Hn Hi Hg Hd.
  destruct api_key as [|k key]; [congruence|].
  destruct nl_input as [|c request]; [congruence|].
  unfold new_widgets. rewrite on_generate_btn_calls, Hi, Hg.
  destruct result; try (simpl; rewrite skipn_length_app; auto).
  exfalso. exact (Hd _ eq_refl).
Qed.

Lemma X16_non_object_result_witness :
  fst (on_generate_btn (replying (Returns (Returns array_reply)))
         no_float unused_str true (lit "key") (lit "failed logins")
         (lit "Sigma") (fresh (replying (Returns (Returns array_reply))) tt))
  = Crashed AttributeError
  /\ new_widgets (fresh (replying (Returns (Returns array_reply))) tt)
       (on_generate_btn (replying (Returns (Returns array_reply)))
          no_float unused_str true (lit "key") (lit "failed logins")
          (lit "Sigma") (fresh (replying (Returns (Returns array_reply))) tt))
     = [spinner; query_header (lit "Sigma")].
Proof.
  eapply (X16_non_object_result_crashes
            (replying (Returns (Returns array_reply))) no_float unused_str
            (lit "key") (lit "failed logins") (lit "Sigma")
            (fresh (replying (Returns (Returns array_reply))) tt)).
  - discriminate.
  - discriminate.
  - vm_compute. reflexivity.
  - vm_compute. reflexivity.
  - discriminate.
Defined.

(** X17.  When model selection raises, the handler stops with that
    exception, with only the spinner shown, and no prompt has been sent to
    any model. *)
Theorem X17_selection_failure_page
        (g : genai.api) (bool_of_float : str -> bool)
        (str_of_value : value -> str)
        (api_key nl_input siem_language : str) (ps : page_state g)
        (e : exn) (st1 : state g) :
  api_key <> [] -> nl_input <> [] ->
  initialize_ai g api_key (backend ps) = (Raises e, st1) ->
  fst (on_generate_btn g bool_of_float str_of_value true api_key nl_input
         siem_language ps) = Crashed (BackendError e)
  /\ new_widgets ps
       (on_generate_btn g bool_of_float str_of_value true api_key nl_input
          siem_language ps) = [spinner]
  /\ prompts_sent
       (page_calls ps
          (on_generate_btn g bool_of_float str_of_value true api_key nl_input
             siem_language ps)) = [].
Proof.
  intros Hk Hn Hi.
  destruct api_key as [|k key]; [congruence|].
  destruct nl_input as [|c request]; [congruence|].
  destruct (initialize_ai_extends g (k :: key) (backend ps)) as (added & Hc & Hp).
  rewrite Hi in Hc. simpl in Hc.
  unfold new_widgets, page_calls. rewrite on_generate_btn_calls, Hi. simpl.
  rewrite Hc, !skipn_length_app. auto.
Qed.

Lemma X17_selection_failure_witness :
  fst (on_generate_btn without_models no_float unused_str true (lit "key")
         (lit "failed logins") (lit "Sigma") (fresh without_models tt))
  = Crashed (BackendError (OtherException 404))
  /\ new_widgets (fresh without_models tt)
       (on_generate_btn without_models no_float unused_str true (lit "key")
          (lit "failed logins") (lit "Sigma") (fresh without_models tt))
     = [spinner]
  /\ prompts_sent
       (page_calls (fresh without_models tt)
          (on_generate_btn without_models no_float unused_str true (lit "key")
             (lit "failed logins") (lit "Sigma") (fresh without_models tt)))
     = [].
Proof.
  eapply (X17_selection_failure_page
            without_models no_float unused_str
            (lit "key") (lit "failed logins") (lit "Sigma")
            (fresh without_models tt)).
  - discriminate.
  - discriminate.
  - vm_compute. reflexivity.
Defined.

(** X18.  When query synthesis raises (the generation call fails, or the
    text of the response cannot be read), the handler stops with that
    exception and shows neither a query nor a recommendation. *)
Theorem X18_generation_failure_page
        (g : genai.api) (bool_of_float : str -> bool)
        (str_of_value : value -> str)
        (api_key nl_input siem_language : str) (ps : page_state g)
        (model : genai.handle g) (e : exn) (st1 st2 : state g) :
  api_key <> [] -> nl_input <> [] ->
  initialize_ai g api_key (backend ps) = (Returns model, st1) ->
  generate_siem_data g model nl_input siem_language st1 = (Raises e, st2) ->
  fst (on_generate_btn g bool_of_float str_of_value true api_key nl_input
         siem_language ps) = Crashed (BackendError e)
  /\ new_widgets ps
       (on_generate_btn g bool_of_float str_of_value true api_key nl_input
          siem_language ps) = [spinner].
Proof.
  intros Hk Hn Hi Hg.
  destruct api_key as [|k key]; [congruence|].
  destruct nl_input as [|c request]; [congruence|].
  unfold new_widgets. rewrite on_generate_btn_calls, Hi, Hg. simpl.
  rewrite skipn_length_app. auto.
Qed.

Lemma X18_generation_failure_witness :
  fst (on_generate_btn (replying (Raises (OtherException 429)))
         no_float unused_str true (lit "key") (lit "failed logins")
         (lit "Sigma") (fresh (replying (Raises (OtherException 429))) tt))
  = Crashed (BackendError (OtherException 429))
  /\ new_widgets (fresh (replying (Raises (OtherException 429))) tt)
       (on_generate_btn (replying (Raises (OtherException 429)))
          no_float unused_str true (lit "key") (lit "failed logins")
          (lit "Sigma") (fresh (replying (Raises (OtherException 429))) tt))
     = [spinner].
Proof.
  eapply (X18_generation_failure_page
            (replying (Raises (OtherException 429))) no_float unused_str
            (lit "key") (lit "failed logins") (lit "Sigma")
            (fresh (replying (Raises (OtherException 429))) tt)).
  - discriminate.
  - discriminate.
  - vm_compute. reflexivity.
  - vm_compute. reflexivity.
Defined.

(** X19.  When [recommendations] is a non-zero integer, the handler shows
    the query and the header of the recommendations and then raises
    [TypeError] at the loop: no box and no message follows. *)
Theorem X19_integer_recommendations_crash
        (g : genai.api) (bool_of_float : str -> bool)
        (str_of_value : value -> str)
        (api_key nl_input siem_language : str) (ps : page_state g)
        (model : genai.handle g) (st1 st2 : state g)
        (d : list (str * value)) (query : value) (z : Z) :
  api_key <> [] -> nl_input <> [] ->
  initialize_ai g api_key (backend ps) = (Returns model, st1) ->
  generate_siem_data g model nl_input siem_language st1
    = (Returns (PyDict d), st2) ->
  dict_get (lit "query") d = Some query ->
  dict_get (lit "recommendations") d = Some (PyInt z) ->
  z <> 0%Z ->
  fst (on_generate_btn g bool_of_float str_of_value true api_key nl_input
         siem_language ps) = Crashed TypeError
  /\ new_widgets ps
       (on_generate_btn g bool_of_float str_of_value true api_key nl_input
          siem_language ps)
     = [spinner; query_header siem_language; st_code query (lit "sql");
        recommendations_header].
Proof.
  intros Hk Hn Hi Hg Hq Hr Hz.
  destruct api_key as [|k key]; [congruence|].
  destruct nl_input as [|c request]; [congruence|].
  unfold new_widgets. rewrite on_generate_btn_calls, Hi, Hg.
  unfold get. rewrite Hq, Hr. simpl.
  apply Z.eqb_neq in Hz. rewrite Hz. simpl.
  rewrite skipn_length_app. auto.
Qed.

Lemma X19_integer_recommendations_witness :
  fst (on_generate_btn
         (replying (Returns (Returns integer_reply)))
         no_float unused_str true (lit "key") (lit "failed logins") (lit "Sigma")
         (fresh (replying (Returns (Returns integer_reply))) tt))
  = Crashed TypeError
  /\ new_widgets
       (fresh (replying (Returns (Returns integer_reply))) tt)
       (on_generate_btn
          (replying (Returns (Returns integer_reply)))
          no_float unused_str true (lit "key") (lit "failed logins") (lit "Sigma")
          (fresh (replying (Returns (Returns integer_reply))) tt))
     = [spinner; query_header (lit "Sigma"); st_code (PyStr (lit "q")) (lit "sql");
        recommendations_header].
Proof.
  eapply (X19_integer_recommendations_crash
            (replying (Returns (Returns integer_reply)))
            no_float unused_str
            (lit "key") (lit "failed logins") (lit "Sigma")
            (fresh (replying (Returns (Returns integer_reply))) tt)).
  - discriminate.
  - discriminate.
  - vm_compute. reflexivity.
  - vm_compute. reflexivity.
  - vm_compute. reflexivity.
  - vm_compute. reflexivity.
  - discriminate.
Defined.

(** X20.  When [recommendations] is a non-empty string instead of a list,
    the handler shows one box for each character of the string. *)
Theorem X20_string_recommendations_by_character
        (g : genai.api) (bool_of_float : str -> bool)
        (str_of_value : value -> str)
        (api_key nl_input siem_language : str) (ps : page_state g)
        (model : genai.handle g) (st1 st2 : state g)
        (d : list (str * value)) (query : value) (c : N) (s : str) :
  api_key <> [] -> nl_input <> [] ->
  initialize_ai g api_key (backend ps) = (Returns model, st1) ->
  generate_siem_data g model nl_input siem_language st1
    = (Returns (PyDict d), st2) ->
  dict_get (lit "query") d = Some query ->
  dict_get (lit "recommendations") d = Some (PyStr (c :: s)) ->
  fst (on_generate_btn g bool_of_float str_of_value true api_key nl_input
         siem_language ps) = Done tt
  /\ new_widgets ps
       (on_generate_btn g bool_of_float str_of_value true api_key nl_input
          siem_language ps)
     = [spinner; query_header siem_language; st_code query (lit "sql");
        recommendations_header]
       ++ map (fun ch => st_markdown
                           (recommendation_box str_of_value (PyStr [ch])) true)
              (c :: s).
Proof.
  intros Hk Hn Hi Hg Hq Hr.
  destruct api_key as [|k key]; [congruence|].
  destruct nl_input as [|c' request]; [congruence|].
  unfold new_widgets. rewrite on_generate_btn_calls, Hi, Hg.
  unfold get. rewrite Hq, Hr.
  cbn [truthy iterate]. rewrite map_map.
  cbn [snd screen]. rewrite skipn_length_app. auto.
Qed.

Lemma X20_string_recommendations_witness :
  fst (on_generate_btn
         (replying (Returns (Returns string_reply)))
         no_float unused_str true (lit "key") (lit "failed logins") (lit "Sigma")
         (fresh (replying (Returns (Returns string_reply))) tt))
  = Done tt
  /\ new_widgets
       (fresh (replying (Returns (Returns string_reply))) tt)
       (on_generate_btn
          (replying (Returns (Returns string_reply)))
          no_float unused_str true (lit "key") (lit "failed logins") (lit "Sigma")
          (fresh (replying (Returns (Returns string_reply))) tt))
     = [spinner; query_header (lit "Sigma"); st_code (PyStr (lit "q")) (lit "sql");
        recommendations_header]
       ++ map (fun ch => st_markdown
                           (recommendation_box unused_str (PyStr [ch])) true)
              (lit "ab").
Proof.
  eapply (X20_string_recommendations_by_character
            (replying (Returns (Returns string_reply)))
            no_float unused_str
            (lit "key") (lit "failed logins") (lit "Sigma")
            (fresh (replying (Returns (Returns string_reply))) tt)).
  - discriminate.
  - discriminate.
  - vm_compute. reflexivity.
  - vm_compute. reflexivity.
  - vm_compute. reflexivity.
  - vm_compute. reflexivity.
Defined.

(** X21.  When a model has been selected, the handler sends exactly one
    prompt, the one built from the request typed and the language chosen
    in the selector, whatever happens afterwards. *)
Theorem X21_page_sends_the_prompt
        (g : genai.api) (bool_of_float : str -> bool)
        (str_of_value : value -> str)
        (api_key nl_input siem_language : str) (ps : page_state g)
        (model : genai.handle g) (st1 : state g) :
  api_key <> [] -> nl_input <> [] ->
  initialize_ai g api_key (backend ps) = (Returns model, st1) ->
  prompts_sent
    (page_calls ps
       (on_generate_btn g bool_of_float str_of_value true api_key nl_input
          siem_language ps))
  = [prompt nl_input siem_language].
Proof.
  intros Hk Hn Hi.
  destruct api_key as [|k key]; [congruence|].
  destruct nl_input as [|c request]; [congruence|].
  destruct (initialize_ai_extends g (k :: key) (backend ps)) as (a1 & Hc1 & Hp1).
  rewrite Hi in Hc1. simpl in Hc1.
  destruct (generate_siem_data_extends g model (c :: request) siem_language st1)
    as (a2 & Hc2 & Hp2).
  assert (calls (backend (snd (on_generate_btn g bool_of_float str_of_value true
                                 (k :: key) (c :: request) siem_language ps)))
          = calls (snd (generate_siem_data g model (c :: request) siem_language st1)))
    as Hb.
  { rewrite on_generate_btn_calls, Hi.
    destruct (generate_siem_data g model (c :: request) siem_language st1)
      as [[result|e] st2]; [|reflexivity].
    destruct (get result (lit "query") (PyStr (lit "Error generating query.")));
      [|reflexivity].
    destruct (get result (lit "recommendations") (PyList [])) as [recs|];
      [|reflexivity].
    destruct (truthy bool_of_float recs); [|reflexivity].
    destruct (iterate recs); reflexivity. }
  unfold page_calls. rewrite Hb, Hc2, Hc1, <- app_assoc, skipn_length_app.
  rewrite prompts_sent_app, Hp1, Hp2. reflexivity.
Qed.

Lemma X21_page_sends_the_prompt_witness :
  prompts_sent
    (page_calls (fresh (replying (Returns (Returns scenario_reply))) tt)
       (on_generate_btn (replying (Returns (Returns scenario_reply)))
          no_float unused_str true (lit "key") (lit "failed logins")
          (lit "Sigma") (fresh (replying (Returns (Returns scenario_reply))) tt)))
  = [prompt (lit "failed logins") (lit "Sigma")].
Proof.
  eapply (X21_page_sends_the_prompt
            (replying (Returns (Returns scenario_reply))) no_float unused_str
            (lit "key") (lit "failed logins") (lit "Sigma")
            (fresh (replying (Returns (Returns scenario_reply))) tt)).
  - discriminate.
  - discriminate.
  - vm_compute. reflexivity.
Defined.
